(** * dpxdt release server: a shallow embedding of [dpxdt/server/api.py]

    The module under verification is the web API that tracks builds,
    release candidates, runs and content-addressed artifacts.  Every
    request handler of the Python module is embedded as a computation in
    a small state-and-abort monad over the database session, and the
    properties of the release life cycle are proved about those
    computations. *)

From Stdlib Require Import Ascii ZArith Lia.
From stdpp Require Import base option list strings numbers relations.

Local Open Scope string_scope.
Local Open Scope Z_scope.

(** ** Python values and request parameters *)

(** The values that the handlers store in the dynamically typed diff
    columns of a run: [None], a text, or an integer. *)
Inductive pyval : Type :=
  | PNone
  | PStr (s : string)
  | PInt (n : Z).

#[global] Instance pyval_eq_dec : EqDecision pyval.
Proof. solve_decision. Defined.

Definition str_nonempty (s : string) : bool :=
  match s with EmptyString => false | String _ _ => true end.

(** Python truth value: [None], the empty text and zero are false. *)
Definition truthy (v : pyval) : bool :=
  match v with
  | PNone => false
  | PStr s => str_nonempty s
  | PInt n => negb (n =? 0)
  end.

(** [a or b] yields its first operand when that one is true. *)
Definition py_or (a b : pyval) : pyval := if truthy a then a else b.

(** [not a]. *)
Definition py_not (a : pyval) : bool := negb (truthy a).

Definition of_opt_str (o : option string) : pyval :=
  match o with Some s => PStr s | None => PNone end.

Definition of_opt_int (o : option Z) : pyval :=
  match o with Some n => PInt n | None => PNone end.

(** *** Conversions applied by [request.form.get(key, type=...)] *)

Definition is_space (c : Ascii.ascii) : bool :=
  let n := Ascii.N_of_ascii c in ((9 <=? n) && (n <=? 13))%N || (n =? 32)%N.

Fixpoint lstrip (s : string) : string :=
  match s with
  | String c s' => if is_space c then lstrip s' else s
  | EmptyString => EmptyString
  end.

Definition strip (s : string) : string :=
  String.rev (lstrip (String.rev (lstrip s))).

Definition digit_of (c : Ascii.ascii) : option Z :=
  let n := Z.of_N (Ascii.N_of_ascii c) in
  if (48 <=? n) && (n <=? 57) then Some (n - 48) else None.

Fixpoint parse_digits (acc : Z) (s : string) : option Z :=
  match s with
  | EmptyString => Some acc
  | String c s' =>
      match digit_of c with
      | Some d => parse_digits (10 * acc + d) s'
      | None => None
      end
  end.

Definition parse_unsigned (s : string) : option Z :=
  match s with
  | EmptyString => None
  | _ => parse_digits 0 s
  end.

(** [int(text)] in base ten: surrounding white space, an optional sign and
    at least one decimal digit; [None] stands for the [ValueError] that
    [form.get] turns into the default. *)
Definition py_int (s : string) : option Z :=
  match strip s with
  | String "+"%char r => parse_unsigned r
  | String "-"%char r => Z.opp <$> parse_unsigned r
  | r => parse_unsigned r
  end.

Fixpoint all_ascii (s : string) : bool :=
  match s with
  | EmptyString => true
  | String c s' => (Ascii.N_of_ascii c <? 128)%N && all_ascii s'
  end.

(** [str(text)] of a form value: the text itself when it is pure ASCII;
    [None] stands for the [UnicodeEncodeError] (a [ValueError]) that
    [form.get] turns into the default. *)
Definition py_str (s : string) : option string :=
  if all_ascii s then Some s else None.

(** The submitted form: a multi-dictionary whose [get] returns the first
    value stored under the key. *)
Definition form : Type := list (string * string).

Fixpoint form_get (f : form) (key : string) : option string :=
  match f with
  | [] => None
  | (k, v) :: f' => if String.eqb k key then Some v else form_get f' key
  end.

(** [request.form.get(key, type=int)] *)
Definition form_get_int (f : form) (key : string) : option Z :=
  form_get f key ≫= py_int.

(** [request.form.get(key, type=str)] *)
Definition form_get_str (f : form) (key : string) : option string :=
  form_get f key ≫= py_str.

(** ** The data model *)

Inductive Status : Type := RECEIVING | PROCESSING | REVIEWING | BAD | GOOD.

#[global] Instance Status_eq_dec : EqDecision Status.
Proof. solve_decision. Defined.

Definition terminal (st : Status) : bool :=
  match st with GOOD | BAD => true | _ => false end.

Module Build.
Record t : Type := mk {
  id : Z;
  created : Z;
  name : string
}.
End Build.

Module Release.
Record t : Type := mk {
  id : Z;
  name : string;
  number : Z;
  created : Z;
  status : Status;
  build_id : Z
}.

Definition set_status (st : Status) (r : t) : t :=
  mk (id r) (name r) (number r) (created r) st (build_id r).

Definition set_number (n : Z) (r : t) : t :=
  mk (id r) (name r) n (created r) (status r) (build_id r).
End Release.

Module Artifact.
Record t : Type := mk {
  id : string;
  created : Z;
  data : list Byte.byte;
  content_type : option string
}.
End Artifact.

Module Run.
Record t : Type := mk {
  id : Z;
  release_id : Z;
  name : string;
  created : Z;
  image : option string;
  log : option string;
  config : option string;
  previous_id : option Z;
  needs_diff : bool;
  diff_image : pyval;
  diff_log : pyval
}.

Definition set_needs_diff (b : bool) (r : t) : t :=
  mk (id r) (release_id r) (name r) (created r) (image r) (log r)
     (config r) (previous_id r) b (diff_image r) (diff_log r).

Definition set_diff_image (v : pyval) (r : t) : t :=
  mk (id r) (release_id r) (name r) (created r) (image r) (log r)
     (config r) (previous_id r) (needs_diff r) v (diff_log r).

Definition set_diff_log (v : pyval) (r : t) : t :=
  mk (id r) (release_id r) (name r) (created r) (image r) (log r)
     (config r) (previous_id r) (needs_diff r) (diff_image r) v.
End Run.

#[global] Instance Release_eq_dec : EqDecision Release.t.
Proof. solve_decision. Defined.

#[global] Instance Run_eq_dec : EqDecision Run.t.
Proof. solve_decision. Defined.

(** A task handed to the work queue: the queue name and the [run_id] of
    its payload. *)
Record Task : Type := mkTask {
  queue_name : string;
  task_run_id : Z
}.

(** ** The database session *)

(** The four tables, rows in insertion order, and the work queue, which
    lives in the same database. *)
Record db : Type := mkdb {
  builds : list Build.t;
  releases : list Release.t;
  runs : list Run.t;
  artifacts : list Artifact.t;
  tasks : list Task
}.

Definition empty_db : db := mkdb [] [] [] [] [].

Inductive level : Type := INFO | ERROR.

(** What a request handler works on: the committed database, the
    session's view of it (committed rows plus the changes of the running
    transaction), and the messages given to [logging]. *)
Record world : Type := mkworld {
  committed : db;
  session : db;
  logs : list (level * string)
}.

Inductive outcome (A : Type) : Type :=
  | Ok (a : A)
  | Abort (msg : string).
Arguments Ok {A} a.
Arguments Abort {A} msg.

(** Handlers are computations that read and write the world and either
    return a value or abort the request: with the message of a failed
    assertion, or with the class of an exception that nothing catches. *)
Definition M (A : Type) : Type := world → outcome A * world.

#[global] Instance M_ret : MRet M := λ A a w, (Ok a, w).

#[global] Instance M_bind : MBind M := λ A B k m w,
  match m w with
  | (Ok a, w') => k a w'
  | (Abort msg, w') => (Abort msg, w')
  end.

Definition abort {A : Type} (msg : string) : M A := λ w, (Abort msg, w).

(** An exception that the handler does not catch: the request ends at
    this point, and nothing after it is executed. *)
Definition raise {A : Type} (exception : string) : M A := abort exception.

(** The outcome of a query, inside a handler. *)
Definition lift {A : Type} (o : outcome A) : M A := λ w, (o, w).

Definition get_session : M db := λ w, (Ok (session w), w).

Definition put_session (d : db) : M unit := λ w,
  (Ok (), mkworld (committed w) d (logs w)).

(** [db.session.commit()] *)
Definition commit : M unit := λ w,
  (Ok (), mkworld (session w) (session w) (logs w)).

(** [logging.info(fmt, ...)] and [logging.error(fmt, ...)]: the record
    keeps the level and the format string. *)
Definition logging (l : level) (fmt : string) : M unit := λ w,
  (Ok (), mkworld (committed w) (session w) (logs w ++ [(l, fmt)])).

(** Modelled from the spec: [utils.jsonify_assert], which is not part of
    the module; a failed assertion ends the request with a synchronous
    error carrying the message, before any domain logic runs. *)
Definition jsonify_assert (cond : bool) (msg : string) : M unit :=
  if cond then mret () else abort msg.

(** [x = <lookup>; utils.jsonify_assert(x is not None, msg)], also used
    for [jsonify_assert(obj, msg)] on a query result, where the object is
    true exactly when it is not [None]. *)
Definition assert_not_None {A : Type} (x : option A) (msg : string) : M A :=
  match x with
  | Some a => jsonify_assert true msg;; mret a
  | None => jsonify_assert false msg;; abort msg
  end.

(** [x = <text or None>; utils.jsonify_assert(x, msg)] *)
Definition assert_truthy (x : option string) (msg : string) : M string :=
  match x with
  | Some s => jsonify_assert (truthy (PStr s)) msg;; mret s
  | None => jsonify_assert (truthy PNone) msg;; abort msg
  end.

(** *** Queries *)

(** The primary key given by an INSERT into a table whose keys are
    [ids]. *)
Definition fresh_id (ids : list Z) : Z := 1 + foldr Z.max 0 ids.

(** [.first()] *)
Definition first {A : Type} (rows : list A) : option A := head rows.

Fixpoint insert_desc {A : Type} (key : A → Z) (x : A) (l : list A) : list A :=
  match l with
  | [] => [x]
  | y :: l' => if key x <? key y then y :: insert_desc key x l' else x :: l
  end.

(** [.order_by(column.desc())]: rows with equal keys keep table order. *)
Definition order_by_desc {A : Type} (key : A → Z) (rows : list A) : list A :=
  foldr (insert_desc key) [] rows.

(** The identifier handed to [Release.query.get]: an integer key, or, as
    in [runs_done], a release object. *)
Inductive ident : Type :=
  | IdInt (n : Z)
  | IdRelease (r : Release.t).

(** The row of the releases with the given primary key. *)
Definition Release_row (n : Z) (d : db) : option Release.t :=
  first (filter (λ r, Release.id r = n) (releases d)).

(** [Release.query.get(ident)]: the SELECT binds the identifier as the
    value of the integer primary key and answers the release with that
    key, [None] when there is none. A release object does not bind as a
    key: the database driver refuses it and the statement raises. *)
Definition Release_query_get (k : ident) (d : db)
    : outcome (option Release.t) :=
  match k with
  | IdInt n => Ok (Release_row n d)
  | IdRelease _ => Abort "DBAPIError"
  end.

(** [Run.query.get(run_id)] *)
Definition Run_query_get (n : Z) (d : db) : option Run.t :=
  first (filter (λ r, Run.id r = n) (runs d)).

(** [Release.query.filter_by(build_id=..., name=..., number=...)] *)
Definition Release_filter_by_number (build_id : Z) (name : string) (number : Z)
    (d : db) : list Release.t :=
  filter (λ r, Release.build_id r = build_id ∧ Release.name r = name
               ∧ Release.number r = number) (releases d).

(** [Release.query.filter_by(build_id=..., name=...)] *)
Definition Release_filter_by_name (build_id : Z) (name : string) (d : db)
    : list Release.t :=
  filter (λ r, Release.build_id r = build_id ∧ Release.name r = name)
         (releases d).

(** [Release.query.filter_by(build_id=..., name=..., status=...)] *)
Definition Release_filter_by_status (build_id : Z) (name : string)
    (st : Status) (d : db) : list Release.t :=
  filter (λ r, Release.build_id r = build_id ∧ Release.name r = name
               ∧ Release.status r = st) (releases d).

(** [Run.query.filter_by(release_id=...)] *)
Definition Run_filter_by_release (release_id : Z) (d : db) : list Run.t :=
  filter (λ r, Run.release_id r = release_id) (runs d).

(** [Run.query.filter_by(release_id=..., name=...)] *)
Definition Run_filter_by_name (release_id : Z) (name : string) (d : db)
    : list Run.t :=
  filter (λ r, Run.release_id r = release_id ∧ Run.name r = name) (runs d).

(** *** Writes *)

(** [db.session.add(obj)] for a new object, flushed: the INSERT assigns
    the primary key and the [created] default. *)
Definition insert_build (now : Z) (b : Build.t) : M Build.t :=
  d ← get_session;
  let b' := Build.mk (fresh_id (Build.id <$> builds d)) now (Build.name b) in
  put_session (mkdb (builds d ++ [b']) (releases d) (runs d) (artifacts d)
                    (tasks d));;
  mret b'.

Definition insert_release (now : Z) (r : Release.t) : M Release.t :=
  d ← get_session;
  let r' := Release.mk (fresh_id (Release.id <$> releases d)) (Release.name r)
              (Release.number r) now (Release.status r) (Release.build_id r) in
  put_session (mkdb (builds d) (releases d ++ [r']) (runs d) (artifacts d)
                    (tasks d));;
  mret r'.

Definition insert_run (now : Z) (r : Run.t) : M Run.t :=
  d ← get_session;
  let r' := Run.mk (fresh_id (Run.id <$> runs d)) (Run.release_id r)
              (Run.name r) now (Run.image r) (Run.log r) (Run.config r)
              (Run.previous_id r) (Run.needs_diff r) (Run.diff_image r)
              (Run.diff_log r) in
  put_session (mkdb (builds d) (releases d) (runs d ++ [r']) (artifacts d)
                    (tasks d));;
  mret r'.

(** The artifact's primary key is its content hash, set by the caller. *)
Definition insert_artifact (now : Z) (a : Artifact.t) : M unit :=
  d ← get_session;
  let a' := Artifact.mk (Artifact.id a) now (Artifact.data a)
              (Artifact.content_type a) in
  put_session (mkdb (builds d) (releases d) (runs d) (artifacts d ++ [a'])
                    (tasks d)).

(** The table after the row with the primary key of [r] took the
    attributes of [r]. *)
Definition replace_release (r : Release.t) (rows : list Release.t)
    : list Release.t :=
  (λ r0, if decide (Release.id r0 = Release.id r) then r else r0) <$> rows.

Definition replace_run (r : Run.t) (rows : list Run.t) : list Run.t :=
  (λ r0, if decide (Run.id r0 = Run.id r) then r else r0) <$> rows.

(** [db.session.add(obj)] for an object loaded from the session whose
    attributes were assigned: the row with its primary key now holds the
    object's attributes. *)
Definition update_release (r : Release.t) : M unit :=
  d ← get_session;
  put_session (mkdb (builds d) (replace_release r (releases d)) (runs d)
                    (artifacts d) (tasks d)).

Definition update_run (r : Run.t) : M unit :=
  d ← get_session;
  put_session (mkdb (builds d) (releases d) (replace_run r (runs d))
                    (artifacts d) (tasks d)).

(** Modelled from the spec: [work_queue.add(queue_name, payload)], which
    is not part of the module; the dispatcher's enqueue appends one task
    for the payload's run, inside the caller's transaction. *)
Definition work_queue_add (queue : string) (run_id : Z) : M unit :=
  d ← get_session;
  put_session (mkdb (builds d) (releases d) (runs d) (artifacts d)
                    (tasks d ++ [mkTask queue run_id])).

(** ** The request handlers *)

(** The JSON body of a successful response. *)
Inductive response : Type :=
  | JBuild (build_id : Z) (name : string)
  | JRelease (build_id : Z) (name : string) (number : Z)
  | JRun (fields : Run.t)   (* the run's fields; [Run.id] is [run_id] *)
  | JSuccess
  | JSha1 (sha1sum : string).

(** An uploaded file of [request.files]. *)
Record FileStorage : Type := mkFile {
  filename : string;
  contents : list Byte.byte
}.

(** [request.files], a multi-dictionary: the uploaded files with the name
    of the form field of each, in the order of the request. Its length is
    the number of field names, and [values()] lists the first file of each
    name. *)
Definition files : Type := list (string * FileStorage).

(** [len(request.files)] *)
Definition files_len (fs : files) : nat := length (remove_dups (fs.*1)).

(** [request.files.values()[0]], read when there is one field name: the
    first file of the request; an [IndexError] when there is none. *)
Definition files_first (fs : files) : M FileStorage :=
  match fs with
  | (_, file_storage) :: _ => mret file_storage
  | [] => raise "IndexError"
  end.

(** The conversions of a format string: each [%] that is not doubled. *)
Fixpoint conversions (fmt : string) : nat :=
  match fmt with
  | String "%" (String "%" rest) => conversions rest
  | String "%" rest => S (conversions rest)
  | String _ rest => conversions rest
  | EmptyString => 0%nat
  end.

(** [fmt % args] with a tuple of [args] values: a [TypeError] unless the
    format has as many conversions. The text itself is not modelled: the
    format stands for it. *)
Definition py_format (fmt : string) (args : nat) : M string :=
  if bool_decide (conversions fmt = args) then mret fmt
  else raise "TypeError".

(** A [Build], [Release] or [Run] object built by its constructor, before
    it is flushed: the primary key and the
    creation time are filled in by the INSERT, the status by its column
    default. *)
Definition Build_new (name : string) : Build.t := Build.mk 0 0 name.

Definition Release_new (name : string) (number build_id : Z) : Release.t :=
  Release.mk 0 name number 0 RECEIVING build_id.

Definition create_build (now : Z) (f : form) : M response :=
  name ← assert_truthy (form_get f "name") "name required";
  build ← insert_build now (Build_new name);
  commit;;
  logging INFO "Created build: build_id=%s, name=%r";;
  mret (JBuild (Build.id build) name).

Definition create_release (now : Z) (f : form) : M response :=
  build_id ← assert_not_None (form_get_int f "build_id") "build_id required";
  name ← assert_truthy (form_get f "name") "name required";
  let release := Release_new name 1 build_id in
  d ← get_session;
  let last_candidate :=
    first (order_by_desc Release.number
             (Release_filter_by_name build_id name d)) in
  let release :=
    match last_candidate with
    | Some last =>
        Release.set_number (Release.number release + Release.number last)
                           release
    | None => release
    end in
  release ← insert_release now release;
  commit;;
  logging INFO "Created release: build_id=%s, name=%r, number=%d";;
  mret (JRelease build_id name (Release.number release)).

(** Moves a release candidate to reviewing if all runs are done. *)
Definition _check_release_done_processing (release_id : ident) : M bool :=
  d ← get_session;
  release ← lift (Release_query_get release_id d);
  match release with
  | None =>
      logging ERROR "Could not find release_id=%s";;
      mret false
  | Some release =>
      if negb (bool_decide (Release.status release = PROCESSING)) then
        logging ERROR "Already done processing: release_id=%s";;
        mret false
      else
        let query := Run_filter_by_release (Release.id release) d in
        if existsb Run.needs_diff query then mret false
        else
          logging INFO
            "Release done processing, now reviewing: build_id=%s, name=%s, number=%d";;
          let release := Release.set_status REVIEWING release in
          update_release release;;
          mret true
  end.

Definition _get_release_params (f : form) : M (Z * string * Z) :=
  build_id ← assert_not_None (form_get_int f "build_id") "build_id required";
  name ← assert_truthy (form_get f "name") "name required";
  number ← assert_not_None (form_get_int f "number") "number required";
  mret (build_id, name, number).

Definition report_run (now : Z) (f : form) : M response :=
  '(build_id, name, number) ← _get_release_params f;
  d ← get_session;
  release ← assert_not_None
              (first (Release_filter_by_number build_id name number d))
              "release does not exist";
  current_image ← assert_truthy (form_get_str f "image")
                                "image must be supplied";
  let current_log := form_get_str f "log" in
  let current_config := form_get_str f "config" in
  let no_diff := of_opt_str (form_get f "no_diff") in
  let diff_image := of_opt_str (form_get_str f "diff_image") in
  let diff_log := of_opt_str (form_get_str f "diff_log") in
  let needs_diff := py_not (py_or (py_or no_diff diff_image) diff_log) in
  let last_good_release :=
    first (order_by_desc Release.created
             (Release_filter_by_status build_id name GOOD d)) in
  let previous_id :=
    match last_good_release with
    | Some good =>
        let last_good_run :=
          first (Run_filter_by_name (Release.id good) name d) in
        match last_good_run with
        | Some run => Some (Run.id run)
        | None => None
        end
    | None => None
    end in
  let fields :=
    Run.mk 0 (Release.id release) name 0 (Some current_image) current_log
           current_config previous_id needs_diff diff_image diff_log in
  run ← insert_run now fields;
  (if needs_diff then work_queue_add "run-pdiff" (Run.id run) else mret ());;
  commit;;
  logging INFO "Created run: build_id=%s, name=%r, number=%d";;
  mret (JRun run).

Definition report_pdiff (f : form) : M response :=
  run_id ← assert_not_None (form_get_int f "run_id") "run_id required";
  let no_diff := of_opt_str (form_get f "no_diff") in
  d ← get_session;
  run ← assert_not_None (Run_query_get run_id d) "Run does not exist";
  let run :=
    Run.set_needs_diff
      (py_not (py_or (py_or no_diff (Run.diff_image run)) (Run.diff_log run)))
      run in
  let run := Run.set_diff_image (of_opt_int (form_get_int f "diff_image")) run in
  let run := Run.set_diff_log (of_opt_int (form_get_int f "diff_log")) run in
  update_run run;;
  logging INFO "Saved pdiff: run_id=%s, no_diff=%s, diff_image=%s, diff_log=%s";;
  _check_release_done_processing (IdInt (Run.release_id run));;
  commit;;
  mret JSuccess.

Definition runs_done (f : form) : M response :=
  '(build_id, name, number) ← _get_release_params f;
  d ← get_session;
  release ← assert_not_None
              (first (Release_filter_by_number build_id name number d))
              "Release does not exist";
  let release := Release.set_status PROCESSING release in
  update_release release;;
  _check_release_done_processing (IdRelease release);;
  commit;;
  logging INFO "Runs done for release: build_id=%s, name=%s, number=%d";;
  mret JSuccess.

(** [status in (Release.GOOD, Release.BAD)] on the submitted text, with
    the state the text names. *)
Definition valid_status (status : option string) : option Status :=
  match status with
  | Some s =>
      if String.eqb s "good" then Some GOOD
      else if String.eqb s "bad" then Some BAD
      else None
  | None => None
  end.

Definition release_done (f : form) : M response :=
  '(build_id, name, number) ← _get_release_params f;
  let status := form_get f "status" in
  let valid_statuses := [GOOD; BAD] in
  message ← py_format "status must be in %r" (length valid_statuses);
  status ← assert_not_None (valid_status status) message;
  d ← get_session;
  release ← assert_not_None
              (first (Release_filter_by_number build_id name number d))
              "Release does not exist";
  let release := Release.set_status status release in
  update_release release;;
  commit;;
  logging INFO "Release marked as %s: build_id=%s, name=%s, number=%d";;
  mret JSuccess.

Section Upload.

(** [hashlib.sha1(data).hexdigest()] and the first component of
    [mimetypes.guess_type(filename)], both from the Python library. *)
Variable sha1_hexdigest : list Byte.byte → string.
Variable guess_type : string → option string.

Definition upload (now : Z) (request_files : files) : M response :=
  jsonify_assert (bool_decide (files_len request_files = 1%nat))
                 "Need exactly one uploaded file";;
  file_storage ← files_first request_files;
  let data := contents file_storage in
  let sha1sum := sha1_hexdigest data in
  d ← get_session;
  let exists_ :=
    first (filter (λ a, Artifact.id a = sha1sum) (artifacts d)) in
  match exists_ with
  | Some _ =>
      logging INFO "Upload already exists: artifact_id=%s";;
      mret (JSha1 sha1sum)
  | None =>
      let content_type := guess_type (filename file_storage) in
      insert_artifact now (Artifact.mk sha1sum 0 data content_type);;
      commit;;
      logging INFO "Upload received: artifact_id=%s, content_type=%s";;
      mret (JSha1 sha1sum)
  end.

(** *** Serving a request *)

Inductive request : Type :=
  | CreateBuild (f : form)
  | CreateRelease (f : form)
  | ReportRun (f : form)
  | ReportPdiff (f : form)
  | RunsDone (f : form)
  | ReleaseDone (f : form)
  | Upload (request_files : files).

Definition handler (now : Z) (req : request) : M response :=
  match req with
  | CreateBuild f => create_build now f
  | CreateRelease f => create_release now f
  | ReportRun f => report_run now f
  | ReportPdiff f => report_pdiff f
  | RunsDone f => runs_done f
  | ReleaseDone f => release_done f
  | Upload request_files => upload now request_files
  end.

End Upload.

(** The server between two requests: the committed database and the log. *)
Record server : Type := mkserver {
  database : db;
  journal : list (level * string)
}.

(** One request from start to teardown: the handler runs on a session
    that starts from the committed database; what it committed is kept,
    what it did not commit is dropped with the session. *)
Definition serve (h : M response) (s : server)
    : outcome response * server :=
  let '(o, w) := h (mkworld (database s) (database s) (journal s)) in
  (o, mkserver (committed w) (logs w)).

(** ** The vocabulary of the properties *)

(** [max(l, default)]: the greatest element, [default] for the empty
    list. *)
Definition max_default (default : Z) (l : list Z) : Z :=
  match l with
  | [] => default
  | x :: l' => foldr Z.max x l'
  end.

(** The candidate numbers already given to a build and release name. *)
Definition existing_numbers (build_id : Z) (name : string) (d : db) : list Z :=
  Release.number <$> Release_filter_by_name build_id name d.

(** A client that sends its requests one after the other. *)
Fixpoint serve_all (hs : list (M response)) (s : server)
    : list (outcome response) * server :=
  match hs with
  | [] => ([], s)
  | h :: hs' =>
      let '(o, s') := serve h s in
      let '(os, s'') := serve_all hs' s' in
      (o :: os, s'')
  end.

(** The run as [report_pdiff] leaves it: the pending flag is computed from
    [no_diff] and the diff columns the run held before the call, and the
    diff columns then take the call's integer values. *)
Definition reported (f : form) (run : Run.t) : Run.t :=
  Run.set_diff_log (of_opt_int (form_get_int f "diff_log"))
    (Run.set_diff_image (of_opt_int (form_get_int f "diff_image"))
       (Run.set_needs_diff
          (py_not (py_or (py_or (of_opt_str (form_get f "no_diff"))
                                (Run.diff_image run)) (Run.diff_log run)))
          run)).

(** The completion predicate of a release: it is processing and none of
    its runs needs a diff. *)
Definition done_processing (rel : Release.t) (d : db) : bool :=
  bool_decide (Release.status rel = PROCESSING)
  && negb (existsb Run.needs_diff (Run_filter_by_release (Release.id rel) d)).

(** The releases after the completion check on [release]. *)
Definition checked (release : option Release.t) (d : db) : list Release.t :=
  match release with
  | Some rel =>
      if done_processing rel d
      then replace_release (Release.set_status REVIEWING rel) (releases d)
      else releases d
  | None => releases d
  end.

(** What a request can do to the table of releases. *)
Inductive release_effect (d d' : db) : Prop :=
  | effect_none :
      releases d' = releases d → release_effect d d'
  | effect_insert r :
      releases d' = (releases d ++ [r])%list →
      Release.status r = RECEIVING →
      Release.id r = fresh_id (Release.id <$> releases d) →
      release_effect d d'
  | effect_review rel :
      rel ∈ releases d →
      Release.status rel = PROCESSING →
      releases d' = replace_release (Release.set_status REVIEWING rel) (releases d) →
      release_effect d d'.

(** The release is good or bad. *)
Definition is_terminal (r : Release.t) : Prop :=
  terminal (Release.status r) = true.

(** A request parameter counts as supplied when it is present with a
    value that is not empty, the sense in which [report_run] asks that
    the image must be supplied. *)
Definition supplied (v : option string) : bool :=
  match v with
  | Some s => str_nonempty s
  | None => false
  end.

(** The good releases of a build and release name, the most recently
    created among them, and the runs of a release with a given name. *)
Definition good_release (build_id : Z) (name : string) (d : db)
    (g : Release.t) : Prop :=
  g ∈ releases d ∧ Release.build_id g = build_id ∧ Release.name g = name
  ∧ Release.status g = GOOD.

Definition last_good_release (build_id : Z) (name : string) (d : db)
    (g : Release.t) : Prop :=
  good_release build_id name d g
  ∧ ∀ g', good_release build_id name d g' →
          Release.created g' ≤ Release.created g.

Definition run_named (release_id : Z) (name : string) (d : db)
    (r : Run.t) : Prop :=
  r ∈ runs d ∧ Run.release_id r = release_id ∧ Run.name r = name.

(** ** Scenarios *)

(** The parameters naming build 1 and release [v1], and its first
    candidate. *)
Definition form_v1 : form := [("build_id", "1"); ("name", "v1")].

Definition fresh_server : server := mkserver empty_db [].

Definition release_v1 : form :=
  [("build_id", "1"); ("name", "v1"); ("number", "1")].

(** A build with one candidate that received one run without any diff. *)
Definition one_pending_run : server :=
  (serve_all [create_build 100 [("name", "site")];
              create_release 101 form_v1;
              report_run 102 (release_v1 ++ [("image", "img")])%list]
             fresh_server).2.

(** The same with the run reported as having no diff. *)
Definition one_resolved_run : server :=
  (serve_all [create_build 100 [("name", "site")];
              create_release 101 form_v1;
              report_run 102 (release_v1 ++ [("image", "img"); ("no_diff", "1")])%list]
             fresh_server).2.

(** A server whose releases all hold the given status: the database as
    it is once the status was assigned, by whatever means. *)
Definition with_status (st : Status) (s : server) : server :=
  mkserver
    (mkdb (builds (database s))
          (Release.set_status st <$> releases (database s))
          (runs (database s)) (artifacts (database s)) (tasks (database s)))
    (journal s).

(** The resolved candidate, marked with the given status. *)
Definition finalized (st : Status) : server :=
  with_status st one_resolved_run.

Definition statuses (s : server) : list Status :=
  Release.status <$> releases (database s).

Definition pending (s : server) : list bool :=
  Run.needs_diff <$> runs (database s).

Definition diff_images (s : server) : list pyval :=
  Run.diff_image <$> runs (database s).

Definition report_seven : form := [("run_id", "1"); ("diff_image", "7")].

Definition report_hash : form :=
  [("run_id", "1");
   ("diff_image", "da39a3ee5e6b4b0d3255bfef95601890afd80709")].

(** The candidate of [one_pending_run], processing. *)
Definition processing_one_pending : server :=
  with_status PROCESSING one_pending_run.

Definition report_blank : form := [("run_id", "1")].

Definition report_image : form :=
  (release_v1 ++ [("image", "img")])%list.

(** ** Consistency of the database, and further scenarios *)

(** The single changes a handler makes to the database: an INSERT into
    one of the tables, the assignment of a status to a release, and the
    assignment of the diff columns of a run. *)
Inductive change (sha1_hexdigest : list Byte.byte → string) (d d' : db)
    : Prop :=
  | add_build b :
      Build.id b = fresh_id (Build.id <$> builds d) →
      d' = mkdb (builds d ++ [b]) (releases d) (runs d) (artifacts d)
                (tasks d) →
      change sha1_hexdigest d d'
  | add_release r :
      Release.id r = fresh_id (Release.id <$> releases d) →
      Release.status r = RECEIVING →
      Release.number r =
        1 + max_default 0
              (existing_numbers (Release.build_id r) (Release.name r) d) →
      d' = mkdb (builds d) (releases d ++ [r]) (runs d) (artifacts d)
                (tasks d) →
      change sha1_hexdigest d d'
  | set_status r st :
      r ∈ releases d →
      d' = mkdb (builds d)
                (replace_release (Release.set_status st r) (releases d))
                (runs d) (artifacts d) (tasks d) →
      change sha1_hexdigest d d'
  | add_run r :
      Run.id r = fresh_id (Run.id <$> runs d) →
      (∃ rel, rel ∈ releases d ∧ Run.release_id r = Release.id rel) →
      (∀ p, Run.previous_id r = Some p → ∃ r0, r0 ∈ runs d ∧ Run.id r0 = p) →
      d' = mkdb (builds d) (releases d) (runs d ++ [r]) (artifacts d)
                (tasks d ++
                   if Run.needs_diff r then [mkTask "run-pdiff" (Run.id r)]
                   else []) →
      change sha1_hexdigest d d'
  | set_diff r b image log :
      r ∈ runs d →
      d' = mkdb (builds d) (releases d)
                (replace_run
                   (Run.set_diff_log log
                      (Run.set_diff_image image (Run.set_needs_diff b r)))
                   (runs d))
                (artifacts d) (tasks d) →
      change sha1_hexdigest d d'
  | add_artifact a :
      Artifact.id a = sha1_hexdigest (Artifact.data a) →
      (∀ a0, a0 ∈ artifacts d → Artifact.id a0 ≠ Artifact.id a) →
      d' = mkdb (builds d) (releases d) (runs d) (artifacts d ++ [a])
                (tasks d) →
      change sha1_hexdigest d d'.

(** The primary keys of every table are distinct. *)
Definition unique_keys (d : db) : Prop :=
  NoDup (Build.id <$> builds d)
  ∧ NoDup (Release.id <$> releases d)
  ∧ NoDup (Run.id <$> runs d)
  ∧ NoDup (Artifact.id <$> artifacts d).

(** The candidates of every build and release name are numbered 1, 2, 3
    and so on, in the order of their creation. *)
Definition numbered (d : db) : Prop :=
  ∀ build_id name,
    existing_numbers build_id name d =
      Z.of_nat <$> seq 1 (length (existing_numbers build_id name d)).

(** A release without its status, and a run without its diff columns:
    the columns that no handler assigns after the INSERT. *)
Definition release_created (r : Release.t) : Release.t :=
  Release.set_status RECEIVING r.

Definition run_created (r : Run.t) : Run.t :=
  Run.set_diff_log PNone (Run.set_diff_image PNone (Run.set_needs_diff false r)).

(** [d'] holds every row of [d], in the same place: builds, artifacts and
    tasks as they were, releases up to their status and runs up to their
    diff columns. *)
Definition extends (d d' : db) : Prop :=
  builds d `prefix_of` builds d'
  ∧ (release_created <$> releases d) `prefix_of` (release_created <$> releases d')
  ∧ (run_created <$> runs d) `prefix_of` (run_created <$> runs d')
  ∧ artifacts d `prefix_of` artifacts d'
  ∧ tasks d `prefix_of` tasks d'.

(** The references between the rows resolve: the release of a run, the
    previous run of a run, and the run of a queued task exist. *)
Definition references_resolve (d : db) : Prop :=
  (∀ r, r ∈ runs d → ∃ rel, rel ∈ releases d ∧ Run.release_id r = Release.id rel)
  ∧ (∀ r p, r ∈ runs d → Run.previous_id r = Some p →
            ∃ r0, r0 ∈ runs d ∧ Run.id r0 = p)
  ∧ (∀ t, t ∈ tasks d → ∃ r, r ∈ runs d ∧ Run.id r = task_run_id t).

(** The key of every stored artifact is the hash of its bytes. *)
Definition content_addressed (sha1_hexdigest : list Byte.byte → string)
    (d : db) : Prop :=
  ∀ a, a ∈ artifacts d → Artifact.id a = sha1_hexdigest (Artifact.data a).

(** The three handlers that name a candidate by build, release name and
    number. *)
Inductive candidate_handler : (form → M response) → Prop :=
  | candidate_report_run now : candidate_handler (report_run now)
  | candidate_runs_done : candidate_handler runs_done
  | candidate_release_done : candidate_handler release_done.

(** A diff report for the run with key [run_id] that carries [no_diff]. *)
Definition resolves (run_id : Z) (f : form) : Prop :=
  form_get_int f "run_id" = Some run_id
  ∧ supplied (form_get f "no_diff") = true.

(** The run belongs to the release and still needs a diff. *)
Definition pending_run (release_id : Z) (d : db) (r : Run.t) : Prop :=
  r ∈ runs d ∧ Run.release_id r = release_id ∧ Run.needs_diff r = true.

(** The servers that a sequence of requests leads to from the empty
    one. *)
Inductive reachable (sha1_hexdigest : list Byte.byte → string)
    (guess_type : string → option string) : server → Prop :=
  | reachable_fresh : reachable sha1_hexdigest guess_type fresh_server
  | reachable_serve now req s :
      reachable sha1_hexdigest guess_type s →
      reachable sha1_hexdigest guess_type
        (serve (handler sha1_hexdigest guess_type now req) s).2.

(** A stand-in for the hash and the content type in examples. *)
Definition no_digest (data : list Byte.byte) : string := "".
Definition no_type (filename : string) : option string := None.

Definition report_no_diff : form := [("run_id", "1"); ("no_diff", "1")].

Definition processing_one_pending_db : db :=
  mkdb [Build.mk 1 100 "site"]
       [Release.mk 1 "v1" 1 101 PROCESSING 1]
       [Run.mk 1 1 "v1" 102 (Some "img") None None None true PNone PNone]
       []
       [mkTask "run-pdiff" 1].

Definition one_pending_db : db :=
  mkdb [Build.mk 1 100 "site"]
       [Release.mk 1 "v1" 1 101 RECEIVING 1]
       [Run.mk 1 1 "v1" 102 (Some "img") None None None true PNone PNone]
       []
       [mkTask "run-pdiff" 1].

Definition one_upload : server :=
  (serve (upload no_digest no_type 1 [("file", mkFile "a.png" [])])
         fresh_server).2.

Definition mark_good : form :=
  (release_v1 ++ [("status", "good")])%list.

Definition one_upload_db : db :=
  mkdb [] [] [] [Artifact.mk "" 1 [] None] [].

(** ** Facts about the queries *)

Section Queries.
Context {A : Type} (key : A → Z).

Lemma first_insert_desc x l :
  first (insert_desc key x l) =
    match l with
    | [] => Some x
    | y :: _ => if key x <? key y then Some y else Some x
    end.
Proof. destruct l as [|y l]; simpl; [done|]. by destruct (key x <? key y). Qed.

Lemma first_order_by_desc_None l :
  first (order_by_desc key l) = None → l = [].
Proof.
  destruct l as [|x l]; [done|].
  unfold order_by_desc; simpl. rewrite first_insert_desc.
  destruct (foldr _ _ l) as [|y t]; [done|]. by destruct (key x <? key y).
Qed.

Lemma first_order_by_desc_Some l m :
  first (order_by_desc key l) = Some m →
  m ∈ l ∧ ∀ y, y ∈ l → key y ≤ key m.
Proof.
  revert m. induction l as [|x l IH]; intros m; [done|].
  unfold order_by_desc; simpl. rewrite first_insert_desc.
  fold (order_by_desc key l).
  destruct (order_by_desc key l) as [|y t] eqn:E.
  - apply (f_equal first), first_order_by_desc_None in E. subst l.
    intros [= <-]. split; [left|]. intros y ->%list_elem_of_singleton. lia.
  - destruct (IH y eq_refl) as [Hy Hmax].
    destruct (Z.ltb_spec (key x) (key y)); intros [= <-].
    + split; [by right|]. intros z [->|Hz]%elem_of_cons; [lia|auto].
    + split; [left|]. intros z [->|Hz]%elem_of_cons; [lia|].
      specialize (Hmax z Hz). lia.
Qed.
End Queries.

Lemma foldr_max_le x l y : y = x ∨ y ∈ l → y ≤ foldr Z.max x l.
Proof.
  induction l as [|z l IH]; simpl.
  - intros [->|H]; [lia|by apply elem_of_nil in H].
  - intros [->|[->|H]%elem_of_cons]; [specialize (IH (or_introl eq_refl))| |specialize (IH (or_intror H))]; lia.
Qed.

Lemma foldr_max_in x l : foldr Z.max x l = x ∨ foldr Z.max x l ∈ l.
Proof.
  induction l as [|z l IH]; simpl; [by left|].
  destruct (Z.max_spec z (foldr Z.max x l)) as [[_ ->]|[_ ->]].
  - destruct IH as [->|IH]; [by left|right; by right].
  - right; left.
Qed.

Lemma max_default_greatest d l m :
  m ∈ l → (∀ y, y ∈ l → y ≤ m) → max_default d l = m.
Proof.
  destruct l as [|x l]; [by intros ?%elem_of_nil|]. simpl. intros Hm Hmax.
  assert (m ≤ foldr Z.max x l) by (apply foldr_max_le; by apply elem_of_cons in Hm).
  assert (foldr Z.max x l ≤ m).
  { apply Hmax. destruct (foldr_max_in x l) as [->|?]; [left|by right]. }
  lia.
Qed.

Lemma max_default_snoc d l :
  max_default d (l ++ [1 + max_default d l]) = 1 + max_default d l.
Proof.
  apply max_default_greatest.
  - apply elem_of_app; right; left.
  - intros y [Hy| ->%list_elem_of_singleton]%elem_of_app; [|lia].
    destruct l as [|x l]; [by apply elem_of_nil in Hy|]. simpl.
    pose proof (foldr_max_le x l y) as Hle. apply elem_of_cons in Hy.
    specialize (Hle Hy). lia.
Qed.

Lemma create_release_number last rows :
  first (order_by_desc Release.number rows) = Some last →
  Release.number last = max_default 0 (Release.number <$> rows).
Proof.
  intros [Hin Hmax]%first_order_by_desc_Some. symmetry.
  apply max_default_greatest.
  - by apply list_elem_of_fmap_2.
  - intros y (r & -> & Hr)%list_elem_of_fmap. auto.
Qed.

(** ** Running the monad *)

Section Run.
Context {A B : Type}.

Lemma run_bind (m : M A) (k : A → M B) w :
  (m ≫= k) w =
    match m w with
    | (Ok a, w') => k a w'
    | (Abort msg, w') => (Abort msg, w')
    end.
Proof. done. Qed.

Lemma run_mret (a : A) w : mret (M := M) a w = (Ok a, w).
Proof. done. Qed.

Lemma run_assert_Some (a : A) msg w :
  assert_not_None (Some a) msg w = (Ok a, w).
Proof. done. Qed.

Lemma run_assert_None msg w :
  assert_not_None (A := A) None msg w = (Abort msg, w).
Proof. done. Qed.

Lemma run_raise exception w : raise (A := A) exception w = (Abort exception, w).
Proof. done. Qed.

Lemma run_lift_Ok (a : A) w : lift (Ok a) w = (Ok a, w).
Proof. done. Qed.

Lemma run_lift_Abort msg w : lift (A := A) (Abort msg) w = (Abort msg, w).
Proof. done. Qed.
End Run.

Lemma run_assert_truthy s msg w :
  s ≠ "" → assert_truthy (Some s) msg w = (Ok s, w).
Proof. by destruct s. Qed.

Lemma run_assert_truthy_empty msg w :
  assert_truthy (Some "") msg w = (Abort msg, w).
Proof. done. Qed.

Lemma run_assert_truthy_None msg w :
  assert_truthy None msg w = (Abort msg, w).
Proof. done. Qed.

Lemma run_get_session w : get_session w = (Ok (session w), w).
Proof. done. Qed.

Lemma run_commit w :
  commit w = (Ok (), mkworld (session w) (session w) (logs w)).
Proof. done. Qed.

Lemma run_logging l fmt w :
  logging l fmt w =
    (Ok (), mkworld (committed w) (session w) (logs w ++ [(l, fmt)])).
Proof. done. Qed.

Lemma run_insert_release now r w :
  insert_release now r w =
    let d := session w in
    let r' := Release.mk (fresh_id (Release.id <$> releases d))
                (Release.name r) (Release.number r) now (Release.status r)
                (Release.build_id r) in
    (Ok r', mkworld (committed w)
              (mkdb (builds d) (releases d ++ [r']) (runs d) (artifacts d)
                    (tasks d))
              (logs w)).
Proof. done. Qed.

Lemma run_insert_build now b w :
  insert_build now b w =
    let d := session w in
    let b' := Build.mk (fresh_id (Build.id <$> builds d)) now (Build.name b) in
    (Ok b', mkworld (committed w)
              (mkdb (builds d ++ [b']) (releases d) (runs d) (artifacts d)
                    (tasks d))
              (logs w)).
Proof. done. Qed.

Lemma run_insert_run now r w :
  insert_run now r w =
    let d := session w in
    let r' := Run.mk (fresh_id (Run.id <$> runs d)) (Run.release_id r)
                (Run.name r) now (Run.image r) (Run.log r) (Run.config r)
                (Run.previous_id r) (Run.needs_diff r) (Run.diff_image r)
                (Run.diff_log r) in
    (Ok r', mkworld (committed w)
              (mkdb (builds d) (releases d) (runs d ++ [r']) (artifacts d)
                    (tasks d))
              (logs w)).
Proof. done. Qed.

Lemma run_insert_artifact now a w :
  insert_artifact now a w =
    let d := session w in
    (Ok (), mkworld (committed w)
              (mkdb (builds d) (releases d) (runs d)
                    (artifacts d ++
                       [Artifact.mk (Artifact.id a) now (Artifact.data a)
                                    (Artifact.content_type a)])
                    (tasks d))
              (logs w)).
Proof. done. Qed.

Lemma run_update_release r w :
  update_release r w =
    let d := session w in
    (Ok (), mkworld (committed w)
              (mkdb (builds d) (replace_release r (releases d)) (runs d)
                    (artifacts d) (tasks d))
              (logs w)).
Proof. done. Qed.

Lemma run_update_run r w :
  update_run r w =
    let d := session w in
    (Ok (), mkworld (committed w)
              (mkdb (builds d) (releases d) (replace_run r (runs d))
                    (artifacts d) (tasks d))
              (logs w)).
Proof. done. Qed.

Lemma run_work_queue_add q n w :
  work_queue_add q n w =
    let d := session w in
    (Ok (), mkworld (committed w)
              (mkdb (builds d) (releases d) (runs d) (artifacts d)
                    (tasks d ++ [mkTask q n]))
              (logs w)).
Proof. done. Qed.

Lemma run_get_release_params f build_id name number w :
  form_get_int f "build_id" = Some build_id →
  form_get f "name" = Some name →
  name ≠ "" →
  form_get_int f "number" = Some number →
  _get_release_params f w = (Ok (build_id, name, number), w).
Proof.
  intros Hb Hn Hne Hk. unfold _get_release_params.
  rewrite Hb, Hn, Hk, run_bind, run_assert_Some, run_bind.
  rewrite run_assert_truthy by done. done.
Qed.

Create Rewrite HintDb mrun.

#[local] Hint Rewrite @run_bind @run_mret @run_assert_Some @run_assert_None
  @run_raise @run_lift_Ok @run_lift_Abort
  run_assert_truthy_empty run_assert_truthy_None run_get_session run_commit
  run_logging run_insert_release run_insert_build run_insert_run
  run_insert_artifact run_update_release run_update_run run_work_queue_add
  : mrun.

(** One step of symbolic execution: rewrite the head computation, then
    reduce the projections of the worlds and databases just built. *)
Ltac mrun :=
  repeat (progress (autorewrite with mrun;
                    cbn [fst snd session committed logs builds releases runs
                         artifacts tasks database journal];
                    cbv beta iota zeta)).

Lemma serve_create_release now f s build_id name :
  form_get_int f "build_id" = Some build_id →
  form_get f "name" = Some name →
  name ≠ "" →
  let d := database s in
  let number := 1 + max_default 0 (existing_numbers build_id name d) in
  serve (create_release now f) s =
    (Ok (JRelease build_id name number),
     mkserver
       (mkdb (builds d)
             (releases d ++
                [Release.mk (fresh_id (Release.id <$> releases d)) name number
                            now RECEIVING build_id])
             (runs d) (artifacts d) (tasks d))
       (journal s ++
          [(INFO, "Created release: build_id=%s, name=%r, number=%d")])).
Proof.
  intros Hb Hn Hne d number. unfold serve, create_release.
  rewrite Hb, Hn, run_bind, run_assert_Some, run_bind.
  rewrite run_assert_truthy by done. mrun.
  fold d. subst number. unfold existing_numbers.
  destruct (first (order_by_desc _ _)) as [last|] eqn:E.
  - apply create_release_number in E. cbn. rewrite E. done.
  - apply first_order_by_desc_None in E. rewrite E. done.
Qed.

Lemma serve_all_create_release f build_id name :
  form_get_int f "build_id" = Some build_id →
  form_get f "name" = Some name →
  name ≠ "" →
  ∀ nows s,
    (serve_all ((λ now, create_release now f) <$> nows) s).1 =
      (λ i, Ok (JRelease build_id name
                  (max_default 0 (existing_numbers build_id name (database s))
                   + Z.of_nat i)))
        <$> seq 1 (length nows).
Proof.
  intros Hb Hn Hne nows. induction nows as [|now nows IH]; intros s; [done|].
  cbn [fmap list_fmap serve_all length seq].
  rewrite (serve_create_release now f s build_id name Hb Hn Hne).
  cbv zeta. specialize (IH (mkserver
       (mkdb (builds (database s))
             (releases (database s) ++
                [Release.mk (fresh_id (Release.id <$> releases (database s))) name (1 + max_default 0 (existing_numbers build_id name (database s)))
                            now RECEIVING build_id])
             (runs (database s)) (artifacts (database s)) (tasks (database s)))
       (journal s ++
          [(INFO, "Created release: build_id=%s, name=%r, number=%d")]))).
  destruct (serve_all _ _) as [os s'']. simpl in IH |- *. rewrite IH.
  f_equal; [do 2 f_equal; lia|].
  rewrite <- (fmap_S_seq 1), <- list_fmap_compose. apply list_fmap_ext.
  intros _ i _. simpl. do 2 f_equal.
  unfold existing_numbers, Release_filter_by_name at 1. simpl.
  rewrite list.filter_app, fmap_app. rewrite filter_cons_True by done.
  rewrite filter_nil. simpl.
  fold (Release_filter_by_name build_id name (database s)).
  fold (existing_numbers build_id name (database s)).
  rewrite max_default_snoc. lia.
Qed.

(** C8. [create_release] answers with candidate number one plus the
    greatest number already given to the build and name (zero when there
    is none), so consecutive calls for one build and name count upward
    without repeats or gaps, from 1 when the name is new. *)
Theorem create_release_numbers_candidates f build_id name :
  form_get_int f "build_id" = Some build_id →
  form_get f "name" = Some name →
  name ≠ "" →
  ∀ s,
    let existing := existing_numbers build_id name (database s) in
    (∀ now, (serve (create_release now f) s).1 =
              Ok (JRelease build_id name (1 + max_default 0 existing)))
    ∧ (∀ nows, (serve_all ((λ now, create_release now f) <$> nows) s).1 =
         (λ i, Ok (JRelease build_id name
                     (max_default 0 existing + Z.of_nat i)))
           <$> seq 1 (length nows))
    ∧ (existing = [] →
       ∀ nows, (serve_all ((λ now, create_release now f) <$> nows) s).1 =
         (λ i, Ok (JRelease build_id name (Z.of_nat i)))
           <$> seq 1 (length nows)).
Proof.
  intros Hb Hn Hne s existing. split; [|split].
  - intros now. by rewrite (serve_create_release now f s build_id name).
  - intros nows. by apply serve_all_create_release.
  - intros Hnil nows.
    rewrite (serve_all_create_release f build_id name Hb Hn Hne).
    fold existing. by rewrite Hnil.
Qed.

Lemma create_release_numbers_candidates_witness :
  form_get_int form_v1 "build_id" = Some 1
  ∧ form_get form_v1 "name" = Some "v1"
  ∧ "v1" ≠ ""
  ∧ (serve_all ((λ now, create_release now form_v1) <$> [10; 20; 30])
               (mkserver empty_db [])).1 =
      [Ok (JRelease 1 "v1" 1); Ok (JRelease 1 "v1" 2); Ok (JRelease 1 "v1" 3)].
Proof.
  split; [done|]. split; [done|]. split; [done|].
  pose proof (create_release_numbers_candidates form_v1 1 "v1" eq_refl eq_refl
                ltac:(done) (mkserver empty_db [])) as (_ & _ & H).
  exact (H eq_refl [10; 20; 30]).
Defined.

Lemma first_filter_replace_release (rel' : Release.t) (l : list Release.t) i :
  first (filter (λ r, Release.id r = i) (replace_release rel' l)) =
    if decide (Release.id rel' = i)
    then (λ _, rel') <$> first (filter (λ r, Release.id r = i) l)
    else first (filter (λ r, Release.id r = i) l).
Proof.
  unfold replace_release.
  induction l as [|r l IH]; [by case_decide|].
  rewrite fmap_cons.
  destruct (decide (Release.id r = Release.id rel')) as [E|N].
  - destruct (decide (Release.id rel' = i)) as [E'|N'].
    + rewrite !filter_cons_True by congruence. done.
    + rewrite !filter_cons_False by congruence. done.
  - destruct (decide (Release.id r = i)) as [E'|N'].
    + rewrite !filter_cons_True by done.
      rewrite decide_False by congruence. done.
    + rewrite !filter_cons_False by done. done.
Qed.

Lemma elem_of_replace_release_ne rel' l r0 :
  r0 ∈ l → Release.id r0 ≠ Release.id rel' → r0 ∈ replace_release rel' l.
Proof.
  intros Hin Hne. unfold replace_release. apply list_elem_of_fmap.
  exists r0. by rewrite decide_False.
Qed.

Lemma first_filter_elem {A} (P : A → Prop) `{∀ x, Decision (P x)} l x :
  first (filter P l) = Some x → x ∈ l ∧ P x.
Proof.
  intros Hx. assert (x ∈ filter P l) as Hin.
  { destruct (filter P l); [done|]. injection Hx as ->. left. }
  apply list_elem_of_filter in Hin. tauto.
Qed.

Lemma existsb_false_iff {A} (p : A → bool) l :
  existsb p l = false ↔ ∀ x, x ∈ l → p x = false.
Proof.
  induction l as [|y l IH]; simpl.
  - split; [intros _ x Hx; by apply elem_of_nil in Hx|done].
  - rewrite orb_false_iff, IH. split.
    + intros [Hy Hl] x [->|Hx]%elem_of_cons; auto.
    + intros Hall; split; [|intros x Hx]; apply Hall; [left|by right].
Qed.

Lemma run_check_release_done_processing n w :
  ∃ b j,
    _check_release_done_processing (IdInt n) w =
      (Ok b,
       mkworld (committed w)
         (mkdb (builds (session w))
               (checked (Release_row n (session w)) (session w))
               (runs (session w)) (artifacts (session w)) (tasks (session w)))
         (logs w ++ j)).
Proof.
  unfold _check_release_done_processing, checked, done_processing. mrun.
  cbn [Release_query_get]. rewrite run_lift_Ok.
  destruct w as [c [bs rs us ars ts] l]; cbn [session committed logs builds releases runs artifacts tasks].
  destruct (Release_row _ _) as [rel|]; mrun; [|eauto].
  case_bool_decide; cbn [negb andb]; mrun; [|eauto].
  destruct (existsb _ _); cbn [negb]; mrun; [|eauto].
  exists false, []. by rewrite app_nil_r.
Qed.

Lemma run_check_release_done_processing_raises release w :
  _check_release_done_processing (IdRelease release) w =
    (Abort "DBAPIError", w).
Proof.
  unfold _check_release_done_processing. mrun.
  cbn [Release_query_get]. rewrite run_lift_Abort. by destruct w.
Qed.

Lemma serve_report_pdiff f s run_id run :
  form_get_int f "run_id" = Some run_id →
  Run_query_get run_id (database s) = Some run →
  let d := database s in
  let d1 := mkdb (builds d) (releases d) (replace_run (reported f run) (runs d))
                 (artifacts d) (tasks d) in
  ∃ j,
    serve (report_pdiff f) s =
      (Ok JSuccess,
       mkserver
         (mkdb (builds d)
               (checked (Release_row (Run.release_id run) d) d1)
               (runs d1) (artifacts d) (tasks d))
         (journal s ++ j)).
Proof.
  intros Hid Hrun d d1. unfold serve, report_pdiff. rewrite Hid. mrun.
  rewrite Hrun. mrun. fold (reported f run). fold d. fold d1.
  destruct (run_check_release_done_processing
              (Run.release_id (reported f run))
              (mkworld d d1
                 (journal s ++
                    [(INFO, "Saved pdiff: run_id=%s, no_diff=%s, diff_image=%s, diff_log=%s")])))
    as (b & j & ->).
  mrun. rewrite <- app_assoc. eauto.
Qed.

Lemma done_processing_spec rel d :
  done_processing rel d = true ↔
    Release.status rel = PROCESSING
    ∧ ∀ r, r ∈ runs d → Run.release_id r = Release.id rel →
           Run.needs_diff r = false.
Proof.
  unfold done_processing, Run_filter_by_release.
  rewrite andb_true_iff, bool_decide_eq_true, negb_true_iff, existsb_false_iff.
  split; intros [Hst Hall]; (split; [done|]).
  - intros r Hr Hrel. apply Hall, list_elem_of_filter. done.
  - intros r [Hrel Hr]%list_elem_of_filter. auto.
Qed.

(** C3. A diff report on a run whose release exists changes the status of
    that release exactly when the release is processing and, with the
    run updated, none of its runs needs a diff; the new status is then
    reviewing, and in every other case the releases are as before. *)
Theorem report_pdiff_reviewing_iff_done f s run_id run release :
  form_get_int f "run_id" = Some run_id →
  Run_query_get run_id (database s) = Some run →
  Release_query_get (IdInt (Run.release_id run)) (database s)
    = Ok (Some release) →
  ∃ s' release',
    serve (report_pdiff f) s = (Ok JSuccess, s')
    ∧ Release_query_get (IdInt (Run.release_id run)) (database s')
        = Ok (Some release')
    ∧ release' = Release.set_status (Release.status release') release
    ∧ let resolved :=
        ∀ r, r ∈ runs (database s') → Run.release_id r = Release.id release →
             Run.needs_diff r = false in
      (Release.status release' ≠ Release.status release
         ↔ Release.status release = PROCESSING ∧ resolved)
      ∧ (Release.status release' ≠ Release.status release →
         Release.status release' = REVIEWING)
      ∧ (Release.status release' = Release.status release →
         releases (database s') = releases (database s))
      ∧ (∀ r0, r0 ∈ releases (database s) →
               Release.id r0 ≠ Release.id release →
               r0 ∈ releases (database s')).
Proof.
  intros Hid Hrun Hget.
  assert (Release_row (Run.release_id run) (database s) = Some release)
    as Hrel by (cbn [Release_query_get] in Hget; congruence).
  destruct (serve_report_pdiff f s run_id run Hid Hrun) as [j Hserve].
  cbv zeta in Hserve. rewrite Hrel in Hserve. unfold checked in Hserve.
  pose proof Hrel as [_ Hkey]%first_filter_elem.
  set (d1 := mkdb _ _ (replace_run _ _) _ _) in Hserve.
  pose proof (done_processing_spec release d1) as Hdone.
  destruct (done_processing release d1).
  - eexists _, (Release.set_status REVIEWING release).
    split; [exact Hserve|]. cbn [database releases runs].
    destruct (proj1 Hdone eq_refl) as [Hst Hall].
    split; [|split; [done|]].
    { unfold Release_query_get, Release_row. cbn [releases].
      rewrite first_filter_replace_release. cbn [Release.id Release.set_status].
      rewrite decide_True by done. unfold Release_row in Hrel.
      subst d1. cbn [releases].
      by rewrite Hrel. }
    cbn [Release.status Release.set_status]. rewrite Hst.
    split; [split; [intros _; by split|done]|].
    split; [done|]. split; [done|].
    intros r0 Hr0 Hne. by apply elem_of_replace_release_ne.
  - eexists _, release. split; [exact Hserve|]. cbn [database releases runs].
    split; [exact Hget|]. split; [by destruct release|].
    split; [split; [done|]|].
    { intros Hc. apply Hdone in Hc. done. }
    split; [done|]. split; [done|]. auto.
Qed.

Lemma run_assert_truthy_String c s msg w :
  assert_truthy (Some (String c s)) msg w = (Ok (String c s), w).
Proof. done. Qed.

#[local] Hint Rewrite run_assert_truthy_String : mrun.

Lemma run_get_release_params_cases f w :
  (∃ msg, _get_release_params f w = (Abort msg, w))
  ∨ (∃ build_id name number,
       form_get_int f "build_id" = Some build_id
       ∧ form_get f "name" = Some name ∧ name ≠ ""
       ∧ form_get_int f "number" = Some number
       ∧ _get_release_params f w = (Ok (build_id, name, number), w)).
Proof.
  unfold _get_release_params.
  destruct (form_get_int f "build_id") as [b|]; mrun; [|eauto].
  destruct (form_get f "name") as [[|c n]|]; mrun; [eauto| |eauto].
  destruct (form_get_int f "number") as [k|]; mrun; [|eauto].
  right. exists b, (String c n), k. done.
Qed.

Lemma create_build_effect now f s :
  release_effect (database s) (database (serve (create_build now f) s).2).
Proof.
  unfold serve, create_build.
  destruct (form_get f "name") as [[|c n]|]; mrun; by constructor 1.
Qed.

Lemma create_release_effect now f s :
  release_effect (database s) (database (serve (create_release now f) s).2).
Proof.
  unfold serve, create_release.
  destruct (form_get_int f "build_id") as [b|]; mrun; [|by constructor 1].
  destruct (form_get f "name") as [[|c n]|]; mrun; try by constructor 1.
  econstructor 2; [done| |done]. cbn. by destruct (first _).
Qed.

Lemma report_run_effect now f s :
  release_effect (database s) (database (serve (report_run now f) s).2).
Proof.
  unfold serve, report_run. rewrite run_bind.
  destruct (run_get_release_params_cases f
              (mkworld (database s) (database s) (journal s)))
    as [[msg ->]|(b & n & k & _ & _ & _ & _ & ->)]; [by constructor 1|].
  mrun. destruct (first (Release_filter_by_number _ _ _ _)); mrun;
    [|by constructor 1].
  destruct (form_get_str f "image") as [[|c i]|]; mrun; try by constructor 1.
  destruct (py_not _); mrun; by constructor 1.
Qed.

Lemma report_pdiff_effect f s :
  release_effect (database s) (database (serve (report_pdiff f) s).2).
Proof.
  destruct (form_get_int f "run_id") as [run_id|] eqn:Hid.
  - destruct (Run_query_get run_id (database s)) as [run|] eqn:Hrun.
    + destruct (serve_report_pdiff f s run_id run Hid Hrun) as [j ->].
      cbn [snd database releases]. unfold checked.
      destruct (Release_row _ _) as [rel|] eqn:Hrel; [|by constructor 1].
      destruct (done_processing rel _) eqn:Hdone; [|by constructor 1].
      apply done_processing_spec in Hdone as [Hst _].
      apply first_filter_elem in Hrel as [Hin _].
      by econstructor 3.
    + unfold serve, report_pdiff. rewrite Hid. mrun. rewrite Hrun. mrun.
      by constructor 1.
  - unfold serve, report_pdiff. rewrite Hid. mrun. by constructor 1.
Qed.

Section UploadEffect.
Variable sha1_hexdigest : list Byte.byte → string.
Variable guess_type : string → option string.

Lemma upload_effect now fs s :
  release_effect (database s)
    (database (serve (upload sha1_hexdigest guess_type now fs) s).2).
Proof.
  unfold serve, upload, jsonify_assert, files_first.
  case_bool_decide; mrun; [|by constructor 1].
  destruct fs as [|[field file_storage] fs]; mrun; [by constructor 1|].
  destruct (first _); mrun; by constructor 1.
Qed.
End UploadEffect.

(** ** Primary keys *)

Lemma fresh_id_gt ids x : x ∈ ids → x < fresh_id ids.
Proof.
  unfold fresh_id. induction ids as [|y ids IH]; [by intros ?%elem_of_nil|].
  simpl. intros [->|Hx]%elem_of_cons; [lia|]. specialize (IH Hx). lia.
Qed.

Lemma fresh_id_not_elem ids : fresh_id ids ∉ ids.
Proof. intros H%fresh_id_gt. lia. Qed.

Lemma replace_release_ids r l :
  Release.id <$> replace_release r l = Release.id <$> l.
Proof.
  unfold replace_release. rewrite <- list_fmap_compose. apply list_fmap_ext.
  intros _ r0 _. simpl. by case_decide.
Qed.

Lemma release_key_inj l r r0 :
  NoDup (Release.id <$> l) → r ∈ l → r0 ∈ l →
  Release.id r = Release.id r0 → r = r0.
Proof.
  induction l as [|x l IH]; [by intros _ ?%elem_of_nil|].
  rewrite fmap_cons. intros [Hx Hl]%list.NoDup_cons Hr Hr0 Hid.
  apply elem_of_cons in Hr as [->|Hr]; apply elem_of_cons in Hr0 as [->|Hr0];
    [done| | |by apply IH].
  - destruct Hx. rewrite Hid. by apply list_elem_of_fmap_2.
  - destruct Hx. rewrite <- Hid. by apply list_elem_of_fmap_2.
Qed.

Lemma release_effect_keys d d' :
  release_effect d d' →
  NoDup (Release.id <$> releases d) → NoDup (Release.id <$> releases d').
Proof.
  intros [->| r -> _ Hid | rel _ _ ->] Hnd; [done| |by rewrite replace_release_ids].
  rewrite fmap_app. apply list.NoDup_app. split; [done|]. split.
  - intros x Hx ->%list_elem_of_singleton. rewrite Hid in Hx.
    by apply fresh_id_not_elem in Hx.
  - apply list.NoDup_singleton.
Qed.

Lemma filter_replace_release (P : Release.t → Prop) `{∀ r, Decision (P r)}
    rel' l :
  ¬ P rel' →
  (∀ r0, r0 ∈ l → Release.id r0 = Release.id rel' → ¬ P r0) →
  filter P (replace_release rel' l) = filter P l.
Proof.
  intros Hrel'. unfold replace_release.
  induction l as [|x l IH]; intros Hall; [done|]. rewrite fmap_cons.
  assert (filter P ((λ r0, if decide (Release.id r0 = Release.id rel')
                           then rel' else r0) <$> l) = filter P l) as IH'.
  { apply IH. intros r0 Hr0. apply Hall. by right. }
  case_decide as Hid.
  - rewrite !filter_cons_False; [done| |done]. apply Hall; [left|done].
  - destruct (decide (P x)).
    + rewrite !filter_cons_True by done. by rewrite IH'.
    + rewrite !filter_cons_False by done. done.
Qed.

Lemma release_effect_terminal d d' :
  release_effect d d' →
  NoDup (Release.id <$> releases d) →
  filter is_terminal (releases d') = filter is_terminal (releases d).
Proof.
  intros [->| r -> Hst _ | rel Hin Hst ->] Hnd; [done| |].
  - rewrite list.filter_app, filter_cons_False, filter_nil, app_nil_r; [done|].
    unfold is_terminal. by rewrite Hst.
  - apply filter_replace_release; [done|].
    intros r0 Hr0 Hid. cbn in Hid.
    rewrite (release_key_inj _ r0 rel Hnd Hr0 Hin Hid).
    unfold is_terminal. by rewrite Hst.
Qed.

Lemma first_filter_is_Some {A} (P : A → Prop) `{∀ x, Decision (P x)} l x :
  x ∈ l → P x → is_Some (first (filter P l)).
Proof.
  intros Hin HP. assert (x ∈ filter P l) as Hx by by apply list_elem_of_filter.
  destruct (filter P l); [by apply elem_of_nil in Hx|by eexists].
Qed.

Lemma serve_runs_done_raises f s build_id name number release :
  form_get_int f "build_id" = Some build_id →
  form_get f "name" = Some name →
  name ≠ "" →
  form_get_int f "number" = Some number →
  first (Release_filter_by_number build_id name number (database s))
    = Some release →
  serve (runs_done f) s = (Abort "DBAPIError", s).
Proof.
  intros Hb Hn Hne Hk Hrel. unfold serve, runs_done.
  rewrite run_bind, (run_get_release_params f build_id name number) by done.
  mrun. rewrite Hrel. mrun.
  rewrite run_check_release_done_processing_raises. by destruct s.
Qed.

Lemma serve_runs_done_missing f s build_id name number :
  form_get_int f "build_id" = Some build_id →
  form_get f "name" = Some name →
  name ≠ "" →
  form_get_int f "number" = Some number →
  first (Release_filter_by_number build_id name number (database s)) = None →
  serve (runs_done f) s = (Abort "Release does not exist", s).
Proof.
  intros Hb Hn Hne Hk Hrel. unfold serve, runs_done.
  rewrite run_bind, (run_get_release_params f build_id name number) by done.
  mrun. rewrite Hrel. mrun. by destruct s.
Qed.

Lemma serve_runs_done_unchanged f s : (serve (runs_done f) s).2 = s.
Proof.
  unfold serve, runs_done. rewrite run_bind.
  destruct (run_get_release_params_cases f
              (mkworld (database s) (database s) (journal s)))
    as [[msg ->]|(b & n & k & _ & _ & _ & _ & ->)]; [by destruct s|].
  mrun. destruct (first (Release_filter_by_number _ _ _ _)); mrun;
    [|by destruct s].
  rewrite run_check_release_done_processing_raises. by destruct s.
Qed.

Lemma run_format_valid_statuses w :
  py_format "status must be in %r" (length [GOOD; BAD]) w
    = (Abort "TypeError", w).
Proof. done. Qed.

Lemma serve_release_done_raises f s build_id name number :
  form_get_int f "build_id" = Some build_id →
  form_get f "name" = Some name →
  name ≠ "" →
  form_get_int f "number" = Some number →
  serve (release_done f) s = (Abort "TypeError", s).
Proof.
  intros Hb Hn Hne Hk. unfold serve, release_done.
  rewrite run_bind, (run_get_release_params f build_id name number) by done.
  rewrite run_bind, run_format_valid_statuses. by destruct s.
Qed.

Lemma serve_release_done_unchanged f s : (serve (release_done f) s).2 = s.
Proof.
  unfold serve, release_done. rewrite run_bind.
  destruct (run_get_release_params_cases f
              (mkworld (database s) (database s) (journal s)))
    as [[msg ->]|(b & n & k & _ & _ & _ & _ & ->)]; [by destruct s|].
  rewrite run_bind, run_format_valid_statuses. by destruct s.
Qed.

(** C1. [runs_done] hands the release object, not its key, to the
    completion check, whose query raises on it. On a receiving candidate
    whose only run is resolved the request ends with that exception before
    the commit: the candidate is still receiving, not reviewing, and
    nothing is logged. With the key of the release, as [report_pdiff]
    passes it, the same check finds the release and moves it to
    reviewing. *)
Lemma runs_done_misses_completion :
  pending one_resolved_run = [false]
  ∧ statuses one_resolved_run = [RECEIVING]
  ∧ serve (runs_done release_v1) one_resolved_run
      = (Abort "DBAPIError", one_resolved_run)
  ∧ statuses (serve (runs_done release_v1) one_resolved_run).2 = [RECEIVING]
  ∧ (let marked := database (with_status PROCESSING one_resolved_run) in
     let w := mkworld (database one_resolved_run) marked [] in
     match first (Release_filter_by_number 1 "v1" 1 marked) with
     | Some release =>
         (_check_release_done_processing (IdRelease release) w).1
           = Abort "DBAPIError"
         ∧ (_check_release_done_processing (IdInt (Release.id release)) w).1
             = Ok true
         ∧ Release.status <$>
             releases (session
               (_check_release_done_processing
                  (IdInt (Release.id release)) w).2)
           = [REVIEWING]
     | None => False
     end).
Proof. vm_compute. done. Qed.

(** C5. No request other than [release_done] changes a release that is
    good or bad: after [create_build], [create_release], [report_run],
    [report_pdiff], [runs_done] and [upload] the terminal releases are the
    same rows as before. *)
Theorem terminal_releases_kept sha1_hexdigest guess_type now req s :
  NoDup (Release.id <$> releases (database s)) →
  match req with ReleaseDone _ => False | _ => True end →
  filter is_terminal
    (releases (database (serve (handler sha1_hexdigest guess_type now req) s).2))
  = filter is_terminal (releases (database s)).
Proof.
  intros Hnd Hreq. apply release_effect_terminal; [|done].
  destruct req as [f|f|f|f|f|f|fs]; try done; cbn [handler].
  - apply create_build_effect.
  - apply create_release_effect.
  - apply report_run_effect.
  - apply report_pdiff_effect.
  - rewrite serve_runs_done_unchanged. by constructor 1.
  - apply upload_effect.
Qed.

(** C2. A diff image reported for a pending run leaves the run pending,
    because the flag is computed from the columns the run held before the
    call; and an artifact identity that is not a decimal number is not
    stored at all. *)
Lemma report_pdiff_reads_old_columns :
  pending one_pending_run = [true]
  ∧ diff_images one_pending_run = [PNone]
  ∧ (serve (report_pdiff report_seven) one_pending_run).1 = Ok JSuccess
  ∧ diff_images (serve (report_pdiff report_seven) one_pending_run).2
      = [PInt 7]
  ∧ pending (serve (report_pdiff report_seven) one_pending_run).2 = [true]
  ∧ py_not (py_or (py_or PNone (PInt 7)) PNone) = false
  ∧ diff_images (serve (report_pdiff report_hash) one_pending_run).2
      = [PNone].
Proof. vm_compute. done. Qed.

(** C6. Diff reports are not idempotent. Delivered twice, the report of a
    diff image leaves the run pending the first time and resolves it, and
    moves the release to reviewing, the second time. And a report that
    resolves the last pending run makes it pending again when it is
    repeated, inside a release that stays reviewing. *)
Lemma report_pdiff_twice_differs :
  statuses processing_one_pending = [PROCESSING]
  ∧ pending processing_one_pending = [true]
  ∧ (let once := (serve (report_pdiff report_seven) processing_one_pending).2 in
     let twice := (serve (report_pdiff report_seven) once).2 in
     pending once = [true] ∧ statuses once = [PROCESSING]
     ∧ pending twice = [false] ∧ statuses twice = [REVIEWING])
  ∧ (let seven := (serve (report_pdiff report_seven) processing_one_pending).2 in
     let once := (serve (report_pdiff report_blank) seven).2 in
     let twice := (serve (report_pdiff report_blank) once).2 in
     pending seven = [true] ∧ statuses seven = [PROCESSING]
     ∧ pending once = [false] ∧ statuses once = [REVIEWING]
     ∧ pending twice = [true] ∧ statuses twice = [REVIEWING]).
Proof. vm_compute. done. Qed.

Lemma py_not_or_supplied a b c :
  py_not (py_or (py_or (of_opt_str a) (of_opt_str b)) (of_opt_str c)) =
    negb (supplied a || supplied b || supplied c).
Proof.
  unfold py_not, py_or.
  destruct a as [[|? ?]|], b as [[|? ?]|], c as [[|? ?]|]; done.
Qed.

Lemma serve_report_run now f s build_id name number release image :
  form_get_int f "build_id" = Some build_id →
  form_get f "name" = Some name →
  name ≠ "" →
  form_get_int f "number" = Some number →
  first (Release_filter_by_number build_id name number (database s))
    = Some release →
  form_get_str f "image" = Some image →
  image ≠ "" →
  let d := database s in
  let previous_id :=
    good ← first (order_by_desc Release.created
                    (Release_filter_by_status build_id name GOOD d));
    Run.id <$> first (Run_filter_by_name (Release.id good) name d) in
  let needs_diff :=
    negb (supplied (form_get f "no_diff")
          || supplied (form_get_str f "diff_image")
          || supplied (form_get_str f "diff_log")) in
  let run :=
    Run.mk (fresh_id (Run.id <$> runs d)) (Release.id release) name now
      (Some image) (form_get_str f "log") (form_get_str f "config")
      previous_id needs_diff
      (of_opt_str (form_get_str f "diff_image"))
      (of_opt_str (form_get_str f "diff_log")) in
  serve (report_run now f) s =
    (Ok (JRun run),
     mkserver
       (mkdb (builds d) (releases d) (runs d ++ [run]) (artifacts d)
             (tasks d ++
                if needs_diff then [mkTask "run-pdiff" (Run.id run)] else []))
       (journal s ++ [(INFO, "Created run: build_id=%s, name=%r, number=%d")])).
Proof.
  intros Hb Hn Hne Hk Hrel Hi Hie d previous_id needs_diff run.
  unfold serve, report_run.
  rewrite run_bind, (run_get_release_params f build_id name number) by done.
  mrun. rewrite Hrel, Hi. mrun. rewrite run_assert_truthy by done. mrun.
  rewrite py_not_or_supplied. fold d. fold needs_diff.
  assert (match first (order_by_desc Release.created
                    (Release_filter_by_status build_id name GOOD d)) with
          | Some good =>
              match first (Run_filter_by_name (Release.id good) name d) with
              | Some run0 => Some (Run.id run0)
              | None => None
              end
          | None => None
          end = previous_id) as ->.
  { subst previous_id. destruct (first (order_by_desc _ _)); [|done].
    cbn. by destruct (first _). }
  cbn [Run.id Run.release_id Run.name Run.image Run.log Run.config
       Run.previous_id Run.needs_diff Run.diff_image Run.diff_log].
  fold run. destruct needs_diff; mrun; [done|]. by rewrite app_nil_r.
Qed.

(** C9. A run reported for an existing release needs a diff exactly when
    none of [no_diff], [diff_image] and [diff_log] is supplied; when it
    does, exactly one [run-pdiff] task carrying the key of the new run
    joins the work queue, and when it does not the queue is as before. *)
Theorem report_run_needs_diff_and_task now f s build_id name number release
    image :
  form_get_int f "build_id" = Some build_id →
  form_get f "name" = Some name →
  name ≠ "" →
  form_get_int f "number" = Some number →
  first (Release_filter_by_number build_id name number (database s))
    = Some release →
  form_get_str f "image" = Some image →
  image ≠ "" →
  ∃ run s',
    serve (report_run now f) s = (Ok (JRun run), s')
    ∧ Run.needs_diff run =
        negb (supplied (form_get f "no_diff")
              || supplied (form_get_str f "diff_image")
              || supplied (form_get_str f "diff_log"))
    ∧ runs (database s') = (runs (database s) ++ [run])%list
    ∧ (∀ r0, r0 ∈ runs (database s) → Run.id r0 < Run.id run)
    ∧ tasks (database s') =
        (tasks (database s) ++
           if Run.needs_diff run then [mkTask "run-pdiff" (Run.id run)]
           else [])%list.
Proof.
  intros Hb Hn Hne Hk Hrel Hi Hie.
  pose proof (serve_report_run now f s build_id name number release image
                Hb Hn Hne Hk Hrel Hi Hie) as Hserve.
  cbv zeta in Hserve. eexists _, _. split; [exact Hserve|].
  cbn [database runs tasks Run.needs_diff Run.id].
  repeat split; try done.
  intros r0 Hr0. apply fresh_id_gt. by apply list_elem_of_fmap_2.
Qed.

Lemma first_order_by_created build_id name d :
  match first (order_by_desc Release.created
                 (Release_filter_by_status build_id name GOOD d)) with
  | Some g => last_good_release build_id name d g
  | None => ∀ g, ¬ good_release build_id name d g
  end.
Proof.
  destruct (first _) as [g|] eqn:E.
  - apply first_order_by_desc_Some in E as [Hin Hmax].
    apply list_elem_of_filter in Hin as [(? & ? & ?) ?]. split; [done|].
    intros g' (? & ? & ? & ?). apply Hmax, list_elem_of_filter. done.
  - apply first_order_by_desc_None in E. intros g (Hin & ? & ? & ?).
    assert (g ∈ Release_filter_by_status build_id name GOOD d) as Hg
      by by apply list_elem_of_filter.
    rewrite E in Hg. by apply elem_of_nil in Hg.
Qed.

Lemma first_run_named release_id name d :
  match first (Run_filter_by_name release_id name d) with
  | Some r => run_named release_id name d r
  | None => ∀ r, ¬ run_named release_id name d r
  end.
Proof.
  destruct (first _) as [r|] eqn:E.
  - apply first_filter_elem in E as [? [? ?]]. done.
  - intros r (Hin & ? & ?).
    destruct (first_filter_is_Some
                (λ r, Run.release_id r = release_id ∧ Run.name r = name)
                (runs d) r Hin) as [x Hx]; [done|].
    unfold Run_filter_by_name in E. by rewrite E in Hx.
Qed.

(** C4. The run that [report_run] creates for an existing release carries
    the release name it was reported under, and its [previous_id] is the
    key of a run of that name inside a most recently created good release
    of the build and name. It is [None] only when the build and name have
    no good release, or when the most recent good release that was
    consulted has no run of that name, whatever older good releases
    hold. When one good release is the most recent and has such a run,
    [previous_id] is set. *)
Theorem report_run_links_last_good_run now f s build_id name number release
    image :
  form_get_int f "build_id" = Some build_id →
  form_get f "name" = Some name →
  name ≠ "" →
  form_get_int f "number" = Some number →
  first (Release_filter_by_number build_id name number (database s))
    = Some release →
  form_get_str f "image" = Some image →
  image ≠ "" →
  let d := database s in
  ∃ run s',
    serve (report_run now f) s = (Ok (JRun run), s')
    ∧ run ∈ runs (database s')
    ∧ Run.release_id run = Release.id release
    ∧ Run.name run = name
    ∧ (∀ p, Run.previous_id run = Some p →
            ∃ g r0, last_good_release build_id name d g
                    ∧ run_named (Release.id g) (Run.name run) d r0
                    ∧ Run.id r0 = p)
    ∧ (Run.previous_id run = None →
       (∀ g, ¬ good_release build_id name d g)
       ∨ ∃ g, last_good_release build_id name d g
              ∧ ∀ r0, ¬ run_named (Release.id g) (Run.name run) d r0)
    ∧ (∀ g r0, last_good_release build_id name d g →
               (∀ g', last_good_release build_id name d g' → g' = g) →
               run_named (Release.id g) (Run.name run) d r0 →
               is_Some (Run.previous_id run)).
Proof.
  intros Hb Hn Hne Hk Hrel Hi Hie d.
  pose proof (serve_report_run now f s build_id name number release image
                Hb Hn Hne Hk Hrel Hi Hie) as Hserve.
  cbv zeta in Hserve. eexists _, _. split; [exact Hserve|].
  cbn [database runs Run.previous_id Run.name Run.release_id]. fold d.
  split; [apply elem_of_app; right; left|]. split; [done|]. split; [done|].
  pose proof (first_order_by_created build_id name d) as Hgood.
  destruct (first (order_by_desc _ _)) as [g|]; cbn [mbind option_bind].
  - pose proof (first_run_named (Release.id g) name d) as Hrun.
    destruct (first (Run_filter_by_name _ _ _)) as [r0|]; cbn [fmap option_fmap option_map].
    + split; [|split; [done|by eexists]].
      intros p [= <-]. by exists g, r0.
    + split; [done|]. split; [intros _; right; by exists g|].
      intros g0 r0 Hg0 Huniq Hr0. rewrite <- (Huniq g Hgood) in Hr0.
      by apply Hrun in Hr0.
  - split; [done|]. split; [by left|].
    intros g r0 [Hg _] _ _. by apply Hgood in Hg.
Qed.

Lemma serve_create_release_abort now f s msg :
  (serve (create_release now f) s).1 = Abort msg →
  (serve (create_release now f) s).2 = s.
Proof.
  unfold serve, create_release.
  destruct (form_get_int f "build_id") as [b|]; mrun; [|by destruct s].
  destruct (form_get f "name") as [[|c n]|]; mrun; by destruct s.
Qed.

(** C10. A [create_release] request that names a build and a release adds
    one release, in state receiving, after the releases already there,
    and leaves those and every build, run, artifact and task as they
    were: no release is good afterwards that was not good before. *)
Theorem create_release_adds_one_release now f s build_id name :
  form_get_int f "build_id" = Some build_id →
  form_get f "name" = Some name →
  name ≠ "" →
  ∃ number r s',
    serve (create_release now f) s = (Ok (JRelease build_id name number), s')
    ∧ releases (database s') = (releases (database s) ++ [r])%list
    ∧ Release.status r = RECEIVING
    ∧ Release.number r = number
    ∧ builds (database s') = builds (database s)
    ∧ runs (database s') = runs (database s)
    ∧ artifacts (database s') = artifacts (database s)
    ∧ tasks (database s') = tasks (database s)
    ∧ (∀ r0, r0 ∈ releases (database s') → Release.status r0 = GOOD →
             r0 ∈ releases (database s)).
Proof.
  intros Hb Hn Hne.
  pose proof (serve_create_release now f s build_id name Hb Hn Hne) as Hserve.
  cbv zeta in Hserve. eexists _, _, _. split; [exact Hserve|].
  cbn [database releases builds runs artifacts tasks Release.status
       Release.number].
  repeat split; try done.
  intros r0 [Hr0| ->%list_elem_of_singleton]%elem_of_app; [done|].
  cbn. done.
Qed.

Lemma create_release_adds_one_release_witness :
  form_get_int form_v1 "build_id" = Some 1
  ∧ form_get form_v1 "name" = Some "v1"
  ∧ "v1" ≠ ""
  ∧ ∃ number s',
      serve (create_release 105 form_v1) (finalized GOOD)
        = (Ok (JRelease 1 "v1" number), s')
      ∧ tasks (database s') = tasks (database (finalized GOOD)).
Proof.
  repeat split; [done|].
  destruct (create_release_adds_one_release 105 form_v1 (finalized GOOD)
              1 "v1" eq_refl eq_refl ltac:(done))
    as (number & r & s' & H & _ & _ & _ & _ & _ & _ & Htasks & _).
  exists number, s'. split; [exact H|exact Htasks].
Defined.

Section UploadFacts.
Variable sha1_hexdigest : list Byte.byte → string.
Variable guess_type : string → option string.

Lemma files_len_singleton field file_storage :
  files_len [(field, file_storage)] = 1%nat.
Proof. done. Qed.

Lemma serve_upload now field name data s :
  serve (upload sha1_hexdigest guess_type now [(field, mkFile name data)]) s =
    let d := database s in
    let sha1sum := sha1_hexdigest data in
    match first (filter (λ a, Artifact.id a = sha1sum) (artifacts d)) with
    | Some _ =>
        (Ok (JSha1 sha1sum),
         mkserver d
           (journal s ++ [(INFO, "Upload already exists: artifact_id=%s")]))
    | None =>
        (Ok (JSha1 sha1sum),
         mkserver
           (mkdb (builds d) (releases d) (runs d)
                 (artifacts d ++
                    [Artifact.mk sha1sum now data (guess_type name)])
                 (tasks d))
           (journal s ++
              [(INFO, "Upload received: artifact_id=%s, content_type=%s")]))
    end.
Proof.
  unfold serve, upload, jsonify_assert, files_first.
  rewrite bool_decide_eq_true_2 by apply files_len_singleton.
  mrun. cbn [contents filename].
  destruct (first _); mrun; done.
Qed.

(** C7. Uploading a file answers with the hash of its bytes. Uploading
    the same bytes again, under any file name, gives the same answer and
    leaves the database as the first upload left it: the artifact with
    that key is the one that was there, or, when there was none, the one
    the first upload stored with these bytes and the content type of
    its file name. The name of the form field that carries the file plays
    no part. *)
Theorem upload_twice_stores_once now now' field field' name name' data s :
  let sha1sum := sha1_hexdigest data in
  let once :=
    serve (upload sha1_hexdigest guess_type now [(field, mkFile name data)])
          s in
  let twice :=
    serve (upload sha1_hexdigest guess_type now'
             [(field', mkFile name' data)]) once.2 in
  once.1 = Ok (JSha1 sha1sum)
  ∧ twice.1 = Ok (JSha1 sha1sum)
  ∧ database twice.2 = database once.2
  ∧ match filter (λ a, Artifact.id a = sha1sum) (artifacts (database s)) with
    | [] =>
        artifacts (database once.2) =
          (artifacts (database s) ++
             [Artifact.mk sha1sum now data (guess_type name)])%list
        ∧ filter (λ a, Artifact.id a = sha1sum)
                 (artifacts (database twice.2))
            = [Artifact.mk sha1sum now data (guess_type name)]
    | _ :: _ => database once.2 = database s
    end.
Proof.
  intros sha1sum once twice. subst once twice.
  rewrite (serve_upload now field name data s). cbv zeta. fold sha1sum.
  destruct (filter _ (artifacts (database s))) as [|a l] eqn:E;
    cbn [first head fst snd].
  - rewrite serve_upload. cbv zeta. fold sha1sum.
    cbn [database artifacts journal].
    rewrite list.filter_app, E, filter_cons_True, filter_nil by done.
    cbn [app first head fst snd database artifacts]. 
    rewrite list.filter_app, E, filter_cons_True, filter_nil by done.
    done.
  - rewrite serve_upload. cbv zeta. fold sha1sum.
    cbn [database artifacts journal]. rewrite E. done.
Qed.
End UploadFacts.

Lemma runs_done_keys f s :
  Release.id <$> releases (database (serve (runs_done f) s).2)
  = Release.id <$> releases (database s).
Proof. by rewrite serve_runs_done_unchanged. Qed.

Lemma release_done_keys f s :
  Release.id <$> releases (database (serve (release_done f) s).2)
  = Release.id <$> releases (database s).
Proof. by rewrite serve_release_done_unchanged. Qed.

Section Keys.
Variable sha1_hexdigest : list Byte.byte → string.
Variable guess_type : string → option string.

(** Every request keeps the primary keys of the releases distinct. *)
Lemma serve_keeps_release_keys now req s :
NoDup (Release.id <$> releases (database s)) →
NoDup (Release.id <$>
         releases (database
                     (serve (handler sha1_hexdigest guess_type now req) s).2)).
Proof.
intros Hnd.
destruct req as [f|f|f|f|f|f|files]; cbn [handler];
  try (by rewrite ?runs_done_keys, ?release_done_keys);
  (eapply release_effect_keys; [|done]).
- apply create_build_effect.
- apply create_release_effect.
- apply report_run_effect.
- apply report_pdiff_effect.
- apply upload_effect.
Qed.
End Keys.

Lemma report_pdiff_reviewing_iff_done_witness :
  form_get_int report_seven "run_id" = Some 1
  ∧ Run_query_get 1 (database processing_one_pending)
      = Some (Run.mk 1 1 "v1" 102 (Some "img") None None None true PNone PNone)
  ∧ Release_query_get (IdInt 1) (database processing_one_pending)
      = Ok (Some (Release.mk 1 "v1" 1 101 PROCESSING 1))
  ∧ ∃ s', serve (report_pdiff report_seven) processing_one_pending
            = (Ok JSuccess, s').
Proof.
  repeat split.
  destruct (report_pdiff_reviewing_iff_done report_seven processing_one_pending
              1 (Run.mk 1 1 "v1" 102 (Some "img") None None None true PNone
                        PNone)
              (Release.mk 1 "v1" 1 101 PROCESSING 1) eq_refl eq_refl eq_refl)
    as (s' & _ & H & _).
  exists s'. exact H.
Defined.

Lemma report_run_needs_diff_and_task_witness :
  form_get_int report_image "build_id" = Some 1
  ∧ form_get report_image "name" = Some "v1"
  ∧ "v1" ≠ ""
  ∧ form_get_int report_image "number" = Some 1
  ∧ first (Release_filter_by_number 1 "v1" 1 (database one_pending_run))
      = Some (Release.mk 1 "v1" 1 101 RECEIVING 1)
  ∧ form_get_str report_image "image" = Some "img"
  ∧ "img" ≠ ""
  ∧ ∃ run s', serve (report_run 103 report_image) one_pending_run
                = (Ok (JRun run), s')
              ∧ Run.needs_diff run = true.
Proof.
  repeat split; try done.
  destruct (report_run_needs_diff_and_task 103 report_image one_pending_run
              1 "v1" 1 (Release.mk 1 "v1" 1 101 RECEIVING 1) "img"
              eq_refl eq_refl ltac:(done) eq_refl eq_refl eq_refl ltac:(done))
    as (run & s' & H & Hneeds & _).
  exists run, s'. split; [exact H|]. rewrite Hneeds. reflexivity.
Defined.

Lemma report_run_links_last_good_run_witness :
  form_get_int report_image "build_id" = Some 1
  ∧ form_get report_image "name" = Some "v1"
  ∧ "v1" ≠ ""
  ∧ form_get_int report_image "number" = Some 1
  ∧ first (Release_filter_by_number 1 "v1" 1 (database (finalized GOOD)))
      = Some (Release.mk 1 "v1" 1 101 GOOD 1)
  ∧ form_get_str report_image "image" = Some "img"
  ∧ "img" ≠ ""
  ∧ ∃ run s', serve (report_run 103 report_image) (finalized GOOD)
                = (Ok (JRun run), s')
              ∧ Run.name run = "v1".
Proof.
  repeat split; try done.
  destruct (report_run_links_last_good_run 103 report_image (finalized GOOD)
              1 "v1" 1 (Release.mk 1 "v1" 1 101 GOOD 1) "img"
              eq_refl eq_refl ltac:(done) eq_refl eq_refl eq_refl ltac:(done))
    as (run & s' & H & _ & _ & Hname & _).
  exists run, s'. split; [exact H|exact Hname].
Defined.

Lemma terminal_releases_kept_witness :
  NoDup (Release.id <$> releases (database (finalized GOOD)))
  ∧ filter is_terminal
      (releases (database
         (serve (handler (λ _, "") (λ _, None) 104 (RunsDone release_v1))
                (finalized GOOD)).2))
    = filter is_terminal (releases (database (finalized GOOD))).
Proof.
  assert (NoDup (Release.id <$> releases (database (finalized GOOD)))) as Hnd.
  { apply (bool_decide_eq_true_1 _). vm_compute. reflexivity. }
  split; [exact Hnd|].
  exact (terminal_releases_kept (λ _, "") (λ _, None) 104
           (RunsDone release_v1) (finalized GOOD) Hnd I).
Defined.

(** ** Every request as a sequence of row changes *)

Section Changes.
Variable sha1_hexdigest : list Byte.byte → string.

Lemma db_eta d :
  mkdb (builds d) (releases d) (runs d) (artifacts d) (tasks d) = d.
Proof. by destruct d. Qed.

Lemma check_changes n w :
  rtc (change sha1_hexdigest) (session w)
    (session (_check_release_done_processing (IdInt n) w).2).
Proof.
  destruct (run_check_release_done_processing n w) as (b & j & ->).
  cbn [snd session]. unfold checked.
  destruct (Release_row n (session w)) as [rel|] eqn:Hrel;
    [|rewrite db_eta; done].
  destruct (done_processing rel (session w)); [|rewrite db_eta; done].
  apply rtc_once. eapply (set_status _ _ _ rel REVIEWING); [|done].
  by apply first_filter_elem in Hrel as [? _].
Qed.

Lemma run_check_changes n w :
  ∃ b w', _check_release_done_processing (IdInt n) w = (Ok b, w')
          ∧ rtc (change sha1_hexdigest) (session w) (session w').
Proof.
  pose proof (check_changes n w) as Hch.
  destruct (run_check_release_done_processing n w) as (b & j & Hrun).
  rewrite Hrun in Hch. rewrite Hrun. by eexists _, _.
Qed.

Lemma create_build_changes now f s :
  rtc (change sha1_hexdigest) (database s) (database (serve (create_build now f) s).2).
Proof.
  unfold serve, create_build.
  destruct (form_get f "name") as [[|c n]|]; mrun; try done.
  apply rtc_once. eapply add_build; [|reflexivity]. done.
Qed.

Lemma create_release_changes now f s :
  rtc (change sha1_hexdigest) (database s) (database (serve (create_release now f) s).2).
Proof.
  unfold serve, create_release.
  destruct (form_get_int f "build_id") as [b|]; mrun; [|done].
  destruct (form_get f "name") as [[|c n]|]; mrun; try done.
  apply rtc_once. eapply add_release; [..|reflexivity]; [done| |].
  - cbn. by destruct (first _).
  - cbn. destruct (first _) as [last|] eqn:E; cbn.
    + apply create_release_number in E. unfold existing_numbers. by rewrite E.
    + apply first_order_by_desc_None in E. unfold existing_numbers.
      by rewrite E.
Qed.

Lemma add_run_change d r :
  Run.id r = fresh_id (Run.id <$> runs d) →
  (∃ rel, rel ∈ releases d ∧ Run.release_id r = Release.id rel) →
  (∀ p, Run.previous_id r = Some p → ∃ r0, r0 ∈ runs d ∧ Run.id r0 = p) →
  change sha1_hexdigest d
    (mkdb (builds d) (releases d) (runs d ++ [r]) (artifacts d)
          (if Run.needs_diff r
           then tasks d ++ [mkTask "run-pdiff" (Run.id r)]
           else tasks d)).
Proof.
  intros Hid Hrel Hprev. eapply add_run; [done..|].
  destruct (Run.needs_diff r); [done|]. by rewrite app_nil_r.
Qed.

Lemma report_run_changes now f s :
  rtc (change sha1_hexdigest) (database s) (database (serve (report_run now f) s).2).
Proof.
  unfold serve, report_run. rewrite run_bind.
  destruct (run_get_release_params_cases f
              (mkworld (database s) (database s) (journal s)))
    as [[msg ->]|(b & n & k & _ & _ & _ & _ & ->)]; [done|].
  mrun.
  destruct (first (Release_filter_by_number _ _ _ _)) as [rel|] eqn:Hrel;
    mrun; [|done].
  destruct (form_get_str f "image") as [[|c i]|]; mrun; try done.
  apply first_filter_elem in Hrel as [Hrel _].
  destruct (py_not _); mrun;
    match goal with
    | |- rtc _ _ (mkdb _ _ (_ ++ [?r]) _ _) =>
        apply rtc_once, (add_run_change _ r)
    end; try done; try (by exists rel);
    cbn; intros p; (destruct (first (order_by_desc _ _)) as [g|]; [|done]);
    (destruct (first (Run_filter_by_name _ _ _)) as [r0|] eqn:Hr0; [|done]);
    intros [= <-]; apply first_filter_elem in Hr0 as [? _]; by exists r0.
Qed.

Lemma report_pdiff_changes f s :
  rtc (change sha1_hexdigest) (database s) (database (serve (report_pdiff f) s).2).
Proof.
  unfold serve, report_pdiff.
  destruct (form_get_int f "run_id") as [run_id|]; mrun; [|done].
  destruct (Run_query_get run_id (database s)) as [run|] eqn:Hrun; mrun;
    [|done].
  apply first_filter_elem in Hrun as [Hrun _].
  match goal with
  | |- context [_check_release_done_processing (IdInt ?n) ?w] =>
      destruct (run_check_changes n w) as (b & w' & -> & Hch)
  end.
  mrun. eapply rtc_l; [|exact Hch]. cbn [session].
  eapply set_diff; [exact Hrun|reflexivity].
Qed.

Lemma runs_done_changes f s :
  rtc (change sha1_hexdigest) (database s) (database (serve (runs_done f) s).2).
Proof. by rewrite serve_runs_done_unchanged. Qed.

Lemma release_done_changes f s :
  rtc (change sha1_hexdigest) (database s) (database (serve (release_done f) s).2).
Proof. by rewrite serve_release_done_unchanged. Qed.

Section UploadChanges.
Variable guess_type : string → option string.

Lemma upload_changes now fs s :
  rtc (change sha1_hexdigest) (database s)
    (database (serve (upload sha1_hexdigest guess_type now fs) s).2).
Proof.
  unfold serve, upload, jsonify_assert, files_first.
  case_bool_decide; mrun; [|done].
  destruct fs as [|[field file] fs]; mrun; [done|].
  destruct (first _) as [a|] eqn:E; mrun; [done|].
  apply rtc_once. eapply add_artifact; [..|reflexivity]; [done|].
  cbn. intros a0 Ha0 Hid.
  destruct (first_filter_is_Some
              (λ a, Artifact.id a = sha1_hexdigest (contents file))
              (artifacts (database s)) a0 Ha0 Hid) as [x Hx].
  by rewrite E in Hx.
Qed.

(** Whatever the request, the committed database moves by a sequence of
    such changes. *)
Lemma handler_changes now req s :
  rtc (change sha1_hexdigest) (database s)
    (database (serve (handler sha1_hexdigest guess_type now req) s).2).
Proof.
  destruct req; cbn [handler];
    auto using create_build_changes, create_release_changes,
      report_run_changes, report_pdiff_changes, runs_done_changes,
      release_done_changes, upload_changes.
Qed.
End UploadChanges.
End Changes.

Lemma replace_run_ids r l : Run.id <$> replace_run r l = Run.id <$> l.
Proof.
  unfold replace_run. rewrite <- list_fmap_compose. apply list_fmap_ext.
  intros _ r0 _. simpl. by case_decide.
Qed.

Lemma NoDup_snoc_fresh ids : NoDup ids → NoDup (ids ++ [fresh_id ids]).
Proof.
  intros Hnd. apply list.NoDup_app. split; [done|]. split.
  - intros x Hx ->%list_elem_of_singleton. by apply fresh_id_not_elem in Hx.
  - apply list.NoDup_singleton.
Qed.

Section Invariants.
Variable sha1_hexdigest : list Byte.byte → string.
Variable guess_type : string → option string.

Lemma change_unique_keys d d' :
  change sha1_hexdigest d d' → unique_keys d → unique_keys d'.
Proof.
  intros Hch (Hb & Hr & Hu & Ha).
  destruct Hch as [b Hid ->|r Hid _ _ ->|r st _ ->|r Hid _ _ ->|r b i l _ ->
                  |a _ Hfresh ->];
    unfold unique_keys; cbn [builds releases runs artifacts];
    rewrite ?fmap_app, ?replace_release_ids, ?replace_run_ids;
    cbn [fmap list_fmap]; rewrite ?Hid;
    repeat split; auto using NoDup_snoc_fresh.
  apply list.NoDup_app. split; [done|]. split; [|apply list.NoDup_singleton].
  intros x (a0 & -> & Ha0)%list_elem_of_fmap ?%list_elem_of_singleton.
  by apply (Hfresh a0).
Qed.

Lemma changes_unique_keys d d' :
  rtc (change sha1_hexdigest) d d' → unique_keys d → unique_keys d'.
Proof. induction 1; eauto using change_unique_keys. Qed.

(** X1. Every request keeps the primary keys of the four tables
    distinct. *)
Theorem serve_keeps_unique_keys now req s :
  unique_keys (database s) →
  unique_keys
    (database (serve (handler sha1_hexdigest guess_type now req) s).2).
Proof. apply changes_unique_keys, handler_changes. Qed.
End Invariants.

Lemma max_default_seq k :
  max_default 0 (Z.of_nat <$> seq 1 k) = Z.of_nat k.
Proof.
  destruct k as [|k]; [done|]. apply max_default_greatest.
  - apply list_elem_of_fmap. exists (S k). split; [done|].
    apply elem_of_seq. lia.
  - intros y (i & -> & Hi%elem_of_seq)%list_elem_of_fmap. lia.
Qed.

Lemma replace_release_set_status st r l :
  NoDup (Release.id <$> l) → r ∈ l →
  replace_release (Release.set_status st r) l =
    (λ r0, if decide (Release.id r0 = Release.id r)
           then Release.set_status st r0 else r0) <$> l.
Proof.
  intros Hnd Hr. unfold replace_release. apply list_fmap_ext.
  intros _ r0 Hr0%list_elem_of_lookup_2. cbn.
  case_decide as Hid; [|done].
  by rewrite (release_key_inj l r0 r Hnd Hr0 Hr Hid).
Qed.

Lemma existing_numbers_fmap (g : Release.t → Release.t) build_id name
    (l : list Release.t) :
  (∀ y, Release.build_id (g y) = Release.build_id y
        ∧ Release.name (g y) = Release.name y
        ∧ Release.number (g y) = Release.number y) →
  Release.number <$>
    filter (λ r, Release.build_id r = build_id ∧ Release.name r = name)
           (g <$> l)
  = Release.number <$>
      filter (λ r, Release.build_id r = build_id ∧ Release.name r = name) l.
Proof.
  intros Hg. induction l as [|x l IH]; [done|]. rewrite fmap_cons.
  destruct (Hg x) as (Hb & Hn & Hk).
  destruct (decide (Release.build_id x = build_id ∧ Release.name x = name))
    as [Hx|Hx].
  - rewrite (filter_cons_True _ x) by done.
    rewrite (filter_cons_True _ (g x)) by (by rewrite Hb, Hn).
    rewrite !fmap_cons, IH, Hk. done.
  - rewrite (filter_cons_False _ x) by done.
    rewrite (filter_cons_False _ (g x)) by (by rewrite Hb, Hn).
    done.
Qed.

Lemma existing_numbers_set_status build_id name st r d rs' :
  NoDup (Release.id <$> releases d) → r ∈ releases d →
  existing_numbers build_id name
    (mkdb (builds d) (replace_release (Release.set_status st r) (releases d))
          (runs d) (artifacts d) rs')
  = existing_numbers build_id name d.
Proof.
  intros Hnd Hr. unfold existing_numbers, Release_filter_by_name.
  cbn [releases]. rewrite replace_release_set_status by done.
  apply existing_numbers_fmap. intros y. by case_decide.
Qed.

Section Numbered.
Variable sha1_hexdigest : list Byte.byte → string.
Variable guess_type : string → option string.

Lemma change_numbered d d' :
  change sha1_hexdigest d d' → unique_keys d → numbered d → numbered d'.
Proof.
  intros Hch (_ & Hkeys & _) Hnum build_id name.
  destruct Hch as [b Hid ->|r Hid Hst Hn ->|r st Hr ->|r Hid _ _ ->
                  |r b i l _ ->|a _ Hfresh ->];
    try exact (Hnum build_id name).
  - unfold existing_numbers, Release_filter_by_name. cbn [releases].
    rewrite list.filter_app, fmap_app.
    fold (Release_filter_by_name build_id name d).
    fold (existing_numbers build_id name d).
    destruct (decide (Release.build_id r = build_id ∧ Release.name r = name))
      as [[<- <-]|Hne].
    + rewrite filter_cons_True, filter_nil by done. cbn [fmap list_fmap].
      rewrite Hn, (Hnum (Release.build_id r) (Release.name r)).
      rewrite max_default_seq, length_app, !length_fmap, !length_seq.
      cbn [length]. rewrite Nat.add_1_r, seq_S, fmap_app. cbn [fmap list_fmap].
      do 3 f_equal. lia.
    + rewrite filter_cons_False, filter_nil, app_nil_r by done.
      apply Hnum.
  - rewrite existing_numbers_set_status by done. apply Hnum.
Qed.

Lemma changes_numbered d d' :
  rtc (change sha1_hexdigest) d d' →
  unique_keys d → numbered d → numbered d'.
Proof.
  induction 1; eauto using change_numbered, change_unique_keys.
Qed.

(** X2. With distinct primary keys, every request keeps the candidates of
    each build and release name numbered 1, 2, 3, ... without gaps or
    repeats, in the order of the table. *)
Theorem serve_keeps_numbered now req s :
  unique_keys (database s) →
  numbered (database s) →
  numbered (database (serve (handler sha1_hexdigest guess_type now req) s).2).
Proof. intros. eapply changes_numbered; eauto using handler_changes. Qed.
End Numbered.

(** X3. When the candidates are so numbered, a build, a release name and a
    number name at most one release, so the lookup of [report_run],
    [runs_done] and [release_done] has no choice to make. *)
Theorem numbered_release_lookup_unique d build_id name number :
  numbered d →
  (length (Release_filter_by_number build_id name number d) ≤ 1)%nat.
Proof.
  intros Hnum.
  assert (Release_filter_by_number build_id name number d =
          filter (λ r, Release.number r = number)
                 (Release_filter_by_name build_id name d)) as ->.
  { unfold Release_filter_by_number, Release_filter_by_name.
    rewrite list_filter_filter. apply list_filter_iff. intros r. tauto. }
  rewrite <- (length_fmap Release.number).
  assert (NoDup (Release.number <$>
                   filter (λ r, Release.number r = number)
                          (Release_filter_by_name build_id name d))) as Hnd.
  { specialize (Hnum build_id name). unfold existing_numbers in Hnum.
    assert (NoDup (Release.number <$> Release_filter_by_name build_id name d))
      as Hall.
    { rewrite Hnum. apply NoDup_fmap_2; [|apply NoDup_seq].
      intros x y. lia. }
    revert Hall. generalize (Release_filter_by_name build_id name d).
    intros l. induction l as [|x l IH]; [done|].
    rewrite fmap_cons. intros [Hx Hl]%list.NoDup_cons.
    destruct (decide (Release.number x = number)).
    - rewrite filter_cons_True by done. rewrite fmap_cons.
      apply list.NoDup_cons. split; [|auto].
      intros (y & Hy & Hin)%list_elem_of_fmap. apply Hx.
      apply list_elem_of_filter in Hin as [_ Hin].
      rewrite Hy. by apply list_elem_of_fmap_2.
    - rewrite filter_cons_False by done. auto. }
  destruct (Release.number <$> _) as [|x [|y l]] eqn:E; cbn; [lia..|].
  exfalso. assert (x = number ∧ y = number) as [-> ->].
  { split.
    - assert (x ∈ Release.number <$>
                filter (λ r, Release.number r = number)
                       (Release_filter_by_name build_id name d)) as Hx
        by (rewrite E; left).
      apply list_elem_of_fmap in Hx as (r & -> & [? _]%list_elem_of_filter).
      done.
    - assert (y ∈ Release.number <$>
                filter (λ r, Release.number r = number)
                       (Release_filter_by_name build_id name d)) as Hy
        by (rewrite E; right; left).
      apply list_elem_of_fmap in Hy as (r & -> & [? _]%list_elem_of_filter).
      done. }
  apply list.NoDup_cons in Hnd as [Hnd _]. apply Hnd. left.
Qed.

Lemma run_key_inj (l : list Run.t) r r0 :
  NoDup (Run.id <$> l) → r ∈ l → r0 ∈ l → Run.id r = Run.id r0 → r = r0.
Proof.
  induction l as [|x l IH]; [by intros _ ?%elem_of_nil|].
  rewrite fmap_cons. intros [Hx Hl]%list.NoDup_cons Hr Hr0 Hid.
  apply elem_of_cons in Hr as [->|Hr]; apply elem_of_cons in Hr0 as [->|Hr0];
    [done| | |by apply IH].
  - destruct Hx. rewrite Hid. by apply list_elem_of_fmap_2.
  - destruct Hx. rewrite <- Hid. by apply list_elem_of_fmap_2.
Qed.

Lemma release_created_replace st r (l : list Release.t) :
  NoDup (Release.id <$> l) → r ∈ l →
  release_created <$> replace_release (Release.set_status st r) l
  = release_created <$> l.
Proof.
  intros Hnd Hr. rewrite replace_release_set_status by done.
  rewrite <- list_fmap_compose. apply list_fmap_ext.
  intros _ r0 _. cbn. by case_decide.
Qed.

Lemma run_created_replace b image log r (l : list Run.t) :
  NoDup (Run.id <$> l) → r ∈ l →
  run_created <$>
    replace_run (Run.set_diff_log log
                   (Run.set_diff_image image (Run.set_needs_diff b r))) l
  = run_created <$> l.
Proof.
  intros Hnd Hr. unfold replace_run. rewrite <- list_fmap_compose.
  apply list_fmap_ext. intros _ r0 Hr0%list_elem_of_lookup_2. cbn.
  case_decide as Hid; [|done]. cbn in Hid.
  by rewrite (run_key_inj l r0 r Hnd Hr0 Hr Hid).
Qed.

#[local] Instance extends_refl : Reflexive extends.
Proof. intros d. by repeat split. Qed.

#[local] Instance extends_trans : Transitive extends.
Proof.
  intros d1 d2 d3 (? & ? & ? & ? & ?) (? & ? & ? & ? & ?).
  repeat split; by etrans.
Qed.

Section Growth.
Variable sha1_hexdigest : list Byte.byte → string.
Variable guess_type : string → option string.

Lemma change_extends d d' :
  change sha1_hexdigest d d' → unique_keys d → extends d d'.
Proof.
  intros Hch (_ & Hr & Hu & _).
  destruct Hch as [b _ ->|r _ _ _ ->|r st Hin ->|r _ _ _ ->|r b i l Hin ->
                  |a _ _ ->];
    unfold extends; cbn [builds releases runs artifacts tasks];
    rewrite ?fmap_app, ?release_created_replace, ?run_created_replace by done;
    repeat split; try done; by apply prefix_app_r.
Qed.

Lemma changes_extends d d' :
  rtc (change sha1_hexdigest) d d' → unique_keys d → extends d d'.
Proof.
  induction 1 as [|d1 d2 d3 Hch _ IH]; intros Hk; [done|].
  etrans; [by eapply change_extends|].
  eapply IH, change_unique_keys; done.
Qed.

(** X4. No request deletes or rewrites a row. With distinct primary keys,
    after any request the tables start with the rows they had: builds,
    artifacts and queued tasks unchanged, releases unchanged but for
    their status, runs unchanged but for [needs_diff], [diff_image] and
    [diff_log]. *)
Theorem serve_extends now req s :
  unique_keys (database s) →
  extends (database s)
    (database (serve (handler sha1_hexdigest guess_type now req) s).2).
Proof. apply changes_extends, handler_changes. Qed.

Lemma elem_of_ids_release (l l' : list Release.t) rel :
  Release.id <$> l' = Release.id <$> l → rel ∈ l →
  ∃ rel', rel' ∈ l' ∧ Release.id rel' = Release.id rel.
Proof.
  intros Hids Hrel. apply (list_elem_of_fmap_2 Release.id) in Hrel.
  rewrite <- Hids in Hrel.
  apply list_elem_of_fmap in Hrel as (rel' & ? & ?). eauto.
Qed.

Lemma elem_of_ids_run (l l' : list Run.t) r :
  Run.id <$> l' = Run.id <$> l → r ∈ l →
  ∃ r', r' ∈ l' ∧ Run.id r' = Run.id r.
Proof.
  intros Hids Hr. apply (list_elem_of_fmap_2 Run.id) in Hr.
  rewrite <- Hids in Hr.
  apply list_elem_of_fmap in Hr as (r' & ? & ?). eauto.
Qed.

Lemma elem_of_replace_run r' (l : list Run.t) r0 :
  r0 ∈ replace_run r' l → r0 = r' ∨ r0 ∈ l.
Proof.
  unfold replace_run. intros (x & -> & Hx)%list_elem_of_fmap.
  case_decide; auto.
Qed.

Lemma change_references d d' :
  change sha1_hexdigest d d' → references_resolve d → references_resolve d'.
Proof.
  intros Hch (Hrel & Hprev & Htask).
  destruct Hch as [b _ ->|r _ _ _ ->|r st Hin ->|r Hid Hr Hp ->|r b i l Hin ->
                  |a _ _ ->];
    unfold references_resolve; cbn [builds releases runs artifacts tasks];
    try done.
  - repeat split; [|done..]. intros r0 Hr0.
    destruct (Hrel r0 Hr0) as (rel & ? & ?). exists rel.
    split; [apply elem_of_app; by left|done].
  - repeat split; [|done..]. intros r0 Hr0.
    destruct (Hrel r0 Hr0) as (rel & Hin' & ->).
    destruct (elem_of_ids_release (releases d)
                (replace_release (Release.set_status st r) (releases d)) rel
                (replace_release_ids _ _) Hin') as (rel' & ? & ?).
    by exists rel'.
  - repeat split.
    + intros r0 [Hr0| ->%list_elem_of_singleton]%elem_of_app; auto.
    + intros r0 p [Hr0| ->%list_elem_of_singleton]%elem_of_app Hr0p.
      * destruct (Hprev r0 p Hr0 Hr0p) as (r1 & ? & ?). exists r1.
        split; [apply elem_of_app; by left|done].
      * destruct (Hp p Hr0p) as (r1 & ? & ?). exists r1.
        split; [apply elem_of_app; by left|done].
    + intros t [Ht|Ht]%elem_of_app.
      * destruct (Htask t Ht) as (r1 & ? & ?). exists r1.
        split; [apply elem_of_app; by left|done].
      * exists r. split; [apply elem_of_app; right; left|].
        destruct (Run.needs_diff r); [|by apply elem_of_nil in Ht].
        by apply list_elem_of_singleton in Ht as ->.
  - set (r' := Run.set_diff_log l (Run.set_diff_image i
                                     (Run.set_needs_diff b r))).
    assert (∀ r1, r1 ∈ runs d →
                  ∃ r2, r2 ∈ replace_run r' (runs d) ∧ Run.id r2 = Run.id r1)
      as Hkeep.
    { intros r1 Hr1. eapply elem_of_ids_run; [apply replace_run_ids|done]. }
    repeat split.
    + intros r0 [->|Hr0]%elem_of_replace_run; [|auto].
      destruct (Hrel r Hin) as (rel & ? & ?). by exists rel.
    + intros r0 p [->|Hr0]%elem_of_replace_run Hr0p.
      * destruct (Hprev r p Hin Hr0p) as (r1 & Hr1 & <-). auto.
      * destruct (Hprev r0 p Hr0 Hr0p) as (r1 & Hr1 & <-). auto.
    + intros t Ht. destruct (Htask t Ht) as (r1 & Hr1 & <-). auto.
Qed.

Lemma changes_references d d' :
  rtc (change sha1_hexdigest) d d' →
  references_resolve d → references_resolve d'.
Proof. induction 1; eauto using change_references. Qed.

(** X5. Every request keeps the references between rows resolved: each run
    belongs to a release in the table, each [previous_id] is the key of a
    run in the table, and each queued task carries the key of a run in
    the table. *)
Theorem serve_keeps_references now req s :
  references_resolve (database s) →
  references_resolve
    (database (serve (handler sha1_hexdigest guess_type now req) s).2).
Proof. apply changes_references, handler_changes. Qed.

Lemma change_content_addressed d d' :
  change sha1_hexdigest d d' → content_addressed sha1_hexdigest d → content_addressed sha1_hexdigest d'.
Proof.
  intros Hch Hca.
  destruct Hch as [b _ ->|r _ _ _ ->|r st Hin ->|r _ _ _ ->|r b i l Hin ->
                  |a Ha _ ->]; try exact Hca.
  intros a0. cbn [artifacts].
  intros [Ha0| ->%list_elem_of_singleton]%elem_of_app; auto.
Qed.

Lemma changes_content_addressed d d' :
  rtc (change sha1_hexdigest) d d' →
  content_addressed sha1_hexdigest d → content_addressed sha1_hexdigest d'.
Proof. induction 1; eauto using change_content_addressed. Qed.

(** X6. The artifact table stays content addressed: every request keeps
    each artifact stored under the hash of its own bytes. *)
Theorem serve_keeps_content_addressed now req s :
  content_addressed sha1_hexdigest (database s) →
  content_addressed sha1_hexdigest
    (database (serve (handler sha1_hexdigest guess_type now req) s).2).
Proof. apply changes_content_addressed, handler_changes. Qed.
End Growth.

Lemma server_eta s : mkserver (database s) (journal s) = s.
Proof. by destruct s. Qed.

(** X9. [create_build] with a name stores one build under a key greater
    than every key in the table, answers with that key and the name, and
    leaves the other tables alone; without a name, or with an empty one,
    it is refused and the server is as before. *)
Theorem create_build_adds_build now f s :
  match form_get f "name" with
  | Some (String c n) =>
      let name := String c n in
      let id := fresh_id (Build.id <$> builds (database s)) in
      serve (create_build now f) s =
        (Ok (JBuild id name),
         mkserver
           (mkdb (builds (database s) ++ [Build.mk id now name])
                 (releases (database s)) (runs (database s))
                 (artifacts (database s)) (tasks (database s)))
           (journal s ++ [(INFO, "Created build: build_id=%s, name=%r")]))
      ∧ ∀ b, b ∈ builds (database s) → Build.id b < id
  | _ => serve (create_build now f) s = (Abort "name required", s)
  end.
Proof.
  unfold serve, create_build.
  destruct (form_get f "name") as [[|c n]|]; mrun; rewrite ?server_eta;
    try done.
  split; [done|]. intros b Hb. apply fresh_id_gt. by apply list_elem_of_fmap_2.
Qed.

(** X10. [create_release] checks [build_id] before [name]: a request
    without an integer [build_id] is refused with "build_id required",
    one with a [build_id] but no name, or an empty one, with "name
    required"; a refused request leaves the server as it was. *)
Theorem create_release_refusals now f s :
  match form_get_int f "build_id", form_get f "name" with
  | None, _ =>
      serve (create_release now f) s = (Abort "build_id required", s)
  | Some _, (None | Some "") =>
      serve (create_release now f) s = (Abort "name required", s)
  | Some build_id, Some (String c n) =>
      ∃ number s',
        serve (create_release now f) s
          = (Ok (JRelease build_id (String c n) number), s')
  end.
Proof.
  unfold serve, create_release.
  destruct (form_get_int f "build_id") as [b|]; mrun; rewrite ?server_eta;
    [|done].
  destruct (form_get f "name") as [[|c n]|]; mrun; rewrite ?server_eta;
    try done.
  eauto.
Qed.

(** X11. [report_run], [runs_done] and [release_done] check their
    parameters in the order [build_id], [name], [number], before
    anything else: the first one that is missing (or not an integer, or
    an empty name) decides the error, and the server is left as it
    was. *)
Theorem candidate_parameters_checked_in_order h f s :
  candidate_handler h →
  match form_get_int f "build_id", form_get f "name",
        form_get_int f "number" with
  | None, _, _ => serve (h f) s = (Abort "build_id required", s)
  | Some _, (None | Some ""), _ => serve (h f) s = (Abort "name required", s)
  | Some _, Some (String _ _), None =>
      serve (h f) s = (Abort "number required", s)
  | Some build_id, Some (String c n), Some number =>
      ∀ w, _get_release_params f w = (Ok (build_id, String c n, number), w)
  end.
Proof.
  intros Hh.
  assert (∀ w, _get_release_params f w =
     match form_get_int f "build_id", form_get f "name",
           form_get_int f "number" with
     | None, _, _ => (Abort "build_id required", w)
     | Some _, (None | Some ""), _ => (Abort "name required", w)
     | Some _, Some (String _ _), None => (Abort "number required", w)
     | Some build_id, Some (String c n), Some number =>
         (Ok (build_id, String c n, number), w)
     end) as Hp.
  { intros w. unfold _get_release_params.
    destruct (form_get_int f "build_id") as [b|]; mrun; [|done].
    destruct (form_get f "name") as [[|c n]|]; mrun; [done| |done].
    destruct (form_get_int f "number"); mrun; done. }
  revert Hp.
  destruct (form_get_int f "build_id") as [b|];
    try destruct (form_get f "name") as [[|c n]|];
    try destruct (form_get_int f "number");
    intros Hp; try exact Hp;
    destruct Hh; unfold serve, report_run, runs_done, release_done;
    rewrite run_bind, Hp; mrun; rewrite ?server_eta; done.
Qed.

(** X12. [report_run] stores nothing unless the candidate exists and an
    image is supplied: with well-formed candidate parameters it is refused
    with "release does not exist" when no release has them, and otherwise
    with "image must be supplied" when [image] is missing, empty or not
    ASCII; the server, its work queue included, is left as it was. *)
Theorem report_run_refusals now f s build_id name number :
  form_get_int f "build_id" = Some build_id →
  form_get f "name" = Some name →
  name ≠ "" →
  form_get_int f "number" = Some number →
  match first (Release_filter_by_number build_id name number (database s)),
        form_get_str f "image" with
  | None, _ =>
      serve (report_run now f) s = (Abort "release does not exist", s)
  | Some _, (None | Some "") =>
      serve (report_run now f) s = (Abort "image must be supplied", s)
  | Some _, Some (String _ _) =>
      ∃ run s', serve (report_run now f) s = (Ok (JRun run), s')
  end.
Proof.
  intros Hb Hn Hne Hk. unfold serve, report_run.
  rewrite run_bind, (run_get_release_params f build_id name number) by done.
  mrun. destruct (first (Release_filter_by_number _ _ _ _)); mrun;
    rewrite ?server_eta; [|done].
  destruct (form_get_str f "image") as [[|c i]|]; mrun; rewrite ?server_eta;
    try done.
  destruct (py_not _); mrun; eauto.
Qed.

(** X13. [report_pdiff] is refused with "run_id required" without an
    integer [run_id] and with "Run does not exist" when no run has that
    key, and then leaves the server as it was; for an existing run it is
    always accepted. *)
Theorem report_pdiff_refusals f s :
  match form_get_int f "run_id" with
  | None => serve (report_pdiff f) s = (Abort "run_id required", s)
  | Some run_id =>
      match Run_query_get run_id (database s) with
      | None => serve (report_pdiff f) s = (Abort "Run does not exist", s)
      | Some _ => ∃ s', serve (report_pdiff f) s = (Ok JSuccess, s')
      end
  end.
Proof.
  destruct (form_get_int f "run_id") as [run_id|] eqn:Hid.
  - destruct (Run_query_get run_id (database s)) as [run|] eqn:Hrun.
    + destruct (serve_report_pdiff f s run_id run Hid Hrun) as [j ->]. eauto.
    + unfold serve, report_pdiff. rewrite Hid. mrun. rewrite Hrun. mrun.
      by rewrite server_eta.
  - unfold serve, report_pdiff. rewrite Hid. mrun. by rewrite server_eta.
Qed.

Section UploadRefusal.
Variable sha1_hexdigest : list Byte.byte → string.
Variable guess_type : string → option string.

Lemma remove_dups_same {A} `{EqDecision A} (x : A) l :
  Forall (λ y, y = x) l → l ≠ [] → remove_dups l = [x].
Proof.
  induction l as [|y l IH]; [done|]. intros [-> Hl]%Forall_cons _.
  cbn [remove_dups]. destruct l as [|z l].
  - cbn [remove_dups].
    destruct (decide_rel _ _ _) as [Hx|Hx]; [by apply elem_of_nil in Hx|done].
  - rewrite IH by done.
    destruct (decide_rel _ _ _) as [Hx|Hx]; [done|]. destruct Hx.
    apply Forall_cons in Hl as [-> _]. left.
Qed.

Lemma files_len_one field file_storage (rest : files) :
  files_len ((field, file_storage) :: rest) = 1%nat
  ↔ Forall (λ e, e.1 = field) rest.
Proof.
  unfold files_len. rewrite fmap_cons. cbn [fst]. split.
  - intros Hlen.
    destruct (remove_dups (field :: rest.*1)) as [|y [|z l]] eqn:E;
      try done.
    assert (∀ x, x ∈ field :: rest.*1 → x = y) as Hall.
    { intros x Hx. apply elem_of_remove_dups in Hx. rewrite E in Hx.
      by apply list_elem_of_singleton in Hx. }
    apply Forall_forall. intros e He.
    rewrite (Hall field) by left. apply Hall. right.
    by apply list_elem_of_fmap_2.
  - intros Hall. rewrite (remove_dups_same field); [done| |done].
    apply Forall_cons. split; [done|].
    apply Forall_fmap. by eapply Forall_impl.
Qed.

(** X18. [upload] takes the files of exactly one form field. A request
    without a file, or with files under two different field names, is
    refused and stores nothing. Files that share their field name count
    once: the request is served as if it carried only the first of them,
    and the others are dropped. *)
Theorem upload_needs_one_field_name now fs s :
  match fs with
  | (field, file_storage) :: rest =>
      if decide (Forall (λ e, e.1 = field) rest) then
        serve (upload sha1_hexdigest guess_type now fs) s
        = serve (upload sha1_hexdigest guess_type now
                   [(field, file_storage)]) s
      else
        serve (upload sha1_hexdigest guess_type now fs) s
        = (Abort "Need exactly one uploaded file", s)
  | [] =>
      serve (upload sha1_hexdigest guess_type now fs) s
      = (Abort "Need exactly one uploaded file", s)
  end.
Proof.
  destruct fs as [|[field file_storage] rest].
  - unfold serve, upload, jsonify_assert, abort.
    rewrite bool_decide_eq_false_2 by done. mrun. by rewrite server_eta.
  - case_decide as Hall.
    + unfold serve, upload, jsonify_assert, files_first.
      rewrite !bool_decide_eq_true_2;
        [done|apply files_len_singleton|by apply files_len_one].
    + unfold serve, upload, jsonify_assert, abort.
      rewrite bool_decide_eq_false_2 by by rewrite files_len_one.
      mrun. by rewrite server_eta.
Qed.

(** X19. What was uploaded can be found again. In a content-addressed
    store where no artifact has other bytes with the same hash, after
    [upload] the key it answers with leads to an artifact holding
    exactly the uploaded bytes. *)
Theorem upload_then_lookup now field name data s :
  content_addressed sha1_hexdigest (database s) →
  (∀ a, a ∈ artifacts (database s) →
        sha1_hexdigest (Artifact.data a) = sha1_hexdigest data →
        Artifact.data a = data) →
  ∃ a s',
    serve (upload sha1_hexdigest guess_type now [(field, mkFile name data)]) s
      = (Ok (JSha1 (Artifact.id a)), s')
    ∧ first (filter (λ a0, Artifact.id a0 = Artifact.id a)
                    (artifacts (database s'))) = Some a
    ∧ Artifact.data a = data.
Proof.
  intros Hca Hcol. rewrite serve_upload. cbv zeta.
  destruct (first (filter _ (artifacts (database s)))) as [a|] eqn:E.
  - pose proof E as [Hin Hid]%first_filter_elem.
    exists a. eexists. rewrite Hid. split; [done|]. cbn [database].
    split; [done|]. apply Hcol; [done|]. rewrite <- Hid. symmetry. by apply Hca.
  - eexists (Artifact.mk _ _ _ _), _. split; [reflexivity|].
    cbn [database artifacts Artifact.id Artifact.data]. split; [|done].
    rewrite list.filter_app, filter_cons_True, filter_nil by done.
    destruct (filter _ (artifacts (database s))); [done|discriminate].
Qed.
End UploadRefusal.

Lemma replace_run_idemp r (l : list Run.t) :
  replace_run r (replace_run r l) = replace_run r l.
Proof.
  unfold replace_run. rewrite <- list_fmap_compose. apply list_fmap_ext.
  intros _ x _. cbn. destruct (decide (Run.id x = Run.id r)).
  - by rewrite decide_True.
  - by rewrite decide_False.
Qed.

Lemma first_filter_replace_run_found r r' (l : list Run.t) :
  first (filter (λ x, Run.id x = Run.id r') l) = Some r →
  first (filter (λ x, Run.id x = Run.id r') (replace_run r' l)) = Some r'.
Proof.
  intros Hfirst. unfold replace_run.
  induction l as [|x l IH]; [done|]. rewrite fmap_cons.
  destruct (decide (Run.id x = Run.id r')) as [E|N].
  - by rewrite filter_cons_True.
  - rewrite filter_cons_False in Hfirst by done.
    rewrite filter_cons_False by done. auto.
Qed.

(** X16. [release_done] marks no release. Once the candidate parameters
    are read, the handler formats the message of its status assertion,
    one conversion for the two valid statuses, and that raises a
    [TypeError]: whatever the status asked for, and whether or not the
    candidate exists, the request ends there, before the status is
    validated and before any release is looked up or written, and the
    server is left as it was. *)
Theorem release_done_raises_type_error f s build_id name number :
  form_get_int f "build_id" = Some build_id →
  form_get f "name" = Some name →
  name ≠ "" →
  form_get_int f "number" = Some number →
  conversions "status must be in %r" ≠ length [GOOD; BAD]
  ∧ serve (release_done f) s = (Abort "TypeError", s).
Proof.
  intros Hb Hn Hne Hk. split; [done|].
  by apply (serve_release_done_raises f s build_id name number).
Qed.

(** X20. [runs_done] commits nothing. A candidate that does not exist is
    refused with "Release does not exist"; for one that exists, the
    completion check is handed the release object and raises before the
    commit, so the status assigned in the session is lost with it and
    the server is left as it was. *)
Theorem runs_done_raises_before_commit f s build_id name number :
  form_get_int f "build_id" = Some build_id →
  form_get f "name" = Some name →
  name ≠ "" →
  form_get_int f "number" = Some number →
  match first (Release_filter_by_number build_id name number (database s))
  with
  | Some _ => serve (runs_done f) s = (Abort "DBAPIError", s)
  | None => serve (runs_done f) s = (Abort "Release does not exist", s)
  end.
Proof.
  intros Hb Hn Hne Hk. destruct (first _) as [release|] eqn:Hrel.
  - by apply (serve_runs_done_raises f s build_id name number release).
  - by apply (serve_runs_done_missing f s build_id name number).
Qed.

Lemma serve_report_pdiff_no_id f s :
  form_get_int f "run_id" = None →
  serve (report_pdiff f) s = (Abort "run_id required", s).
Proof.
  intros Hid. unfold serve, report_pdiff. rewrite Hid. mrun.
  by rewrite server_eta.
Qed.

Lemma serve_report_pdiff_no_run f s run_id :
  form_get_int f "run_id" = Some run_id →
  Run_query_get run_id (database s) = None →
  serve (report_pdiff f) s = (Abort "Run does not exist", s).
Proof.
  intros Hid Hrun. unfold serve, report_pdiff. rewrite Hid. mrun.
  rewrite Hrun. mrun. by rewrite server_eta.
Qed.

Lemma reported_no_diff f run :
  supplied (form_get f "no_diff") = true →
  Run.needs_diff (reported f run) = false
  ∧ reported f (reported f run) = reported f run.
Proof.
  intros Hno. unfold reported, py_not, py_or.
  destruct (form_get f "no_diff") as [[|c n]|]; try done.
Qed.

Lemma done_processing_runs rel d d' :
  runs d' = runs d → done_processing rel d' = done_processing rel d.
Proof.
  intros Hruns. unfold done_processing, Run_filter_by_release.
  by rewrite Hruns.
Qed.

Lemma done_processing_reviewing rel d :
  done_processing (Release.set_status REVIEWING rel) d = false.
Proof. done. Qed.

(** X14. A diff report that carries [no_diff] resolves its run and is
    idempotent: delivered twice, it leaves the database as the first
    delivery left it. *)
Theorem report_pdiff_no_diff_twice f s :
  supplied (form_get f "no_diff") = true →
  database (serve (report_pdiff f) (serve (report_pdiff f) s).2).2
  = database (serve (report_pdiff f) s).2.
Proof.
  intros Hno.
  destruct (form_get_int f "run_id") as [run_id|] eqn:Hid;
    [|by rewrite !serve_report_pdiff_no_id].
  destruct (Run_query_get run_id (database s)) as [run|] eqn:Hrun;
    [|rewrite (serve_report_pdiff_no_run f s run_id) by done; cbn [snd];
      by rewrite (serve_report_pdiff_no_run f s run_id)].
  destruct (reported_no_diff f run Hno) as [_ Hfix].
  destruct (serve_report_pdiff f s run_id run Hid Hrun) as [j ->].
  cbv zeta. cbn [snd].
  set (d := database s).
  set (d1 := mkdb (builds d) (releases d)
               (replace_run (reported f run) (runs d)) (artifacts d) (tasks d)).
  set (once := mkserver _ _).
  assert (Run.id (reported f run) = run_id) as Hkey.
  { by apply first_filter_elem in Hrun as [_ ?]. }
  assert (Run_query_get run_id (database once) = Some (reported f run))
    as Hrun'.
  { unfold Run_query_get, once. cbn [database runs]. rewrite <- Hkey.
    apply first_filter_replace_run_found with (r := run).
    rewrite Hkey. exact Hrun. }
  destruct (serve_report_pdiff f once run_id (reported f run) Hid Hrun')
    as [j' ->].
  cbv zeta. cbn [snd database].
  assert (replace_run (reported f run) (runs (database once))
          = runs (database once)) as Hruns.
  { unfold once, d1. cbn [database runs]. apply replace_run_idemp. }
  assert (checked (Release_row (Run.release_id run) (database once))
                  (database once)
          = releases (database once)) as Hchk.
  { unfold once. cbn [database].
    destruct (Release_row (Run.release_id run) d) as [rel|] eqn:Hrel.
    - pose proof Hrel as [_ Hrid]%first_filter_elem.
      unfold Release_row in Hrel.
      cbn [checked]. destruct (done_processing rel d1) eqn:Hdone.
      + unfold Release_row. cbn [releases].
        rewrite first_filter_replace_release.
        cbn [Release.id Release.set_status]. rewrite decide_True by done.
        change (releases d1) with (releases d). rewrite Hrel.
        cbn [fmap option_fmap option_map checked].
        by rewrite done_processing_reviewing.
      + unfold Release_row. cbn [releases].
        change (releases d1) with (releases d). rewrite Hrel.
        cbn [checked]. rewrite (done_processing_runs rel d1) by done.
        by rewrite Hdone.
    - unfold Release_row in *. cbn [checked releases].
      change (releases d1) with (releases d). by rewrite Hrel. }
  rewrite Hfix, Hruns, db_eta.
  change (Run.release_id (reported f run)) with (Run.release_id run).
  by rewrite Hchk, db_eta.
Qed.

Section Frame.
Variable sha1_hexdigest : list Byte.byte → string.
Variable guess_type : string → option string.

(** X8. Each request writes to its own tables only. Builds change with
    [create_build] alone, artifacts with [upload] alone, the work queue
    with [report_run] alone; runs are touched by [report_run] and
    [report_pdiff] only, and [report_pdiff] neither adds nor removes one;
    releases are never touched by [create_build], [report_run] and
    [upload], and [runs_done] and [release_done] neither add nor remove
    one. *)
Theorem handler_writes_own_tables now req s :
  let d := database s in
  let d' := database (serve (handler sha1_hexdigest guess_type now req) s).2 in
  match req with
  | CreateBuild _ =>
      releases d' = releases d ∧ runs d' = runs d
      ∧ artifacts d' = artifacts d ∧ tasks d' = tasks d
  | CreateRelease _ =>
      builds d' = builds d ∧ runs d' = runs d
      ∧ artifacts d' = artifacts d ∧ tasks d' = tasks d
  | ReportRun _ =>
      builds d' = builds d ∧ releases d' = releases d
      ∧ artifacts d' = artifacts d
  | ReportPdiff _ =>
      builds d' = builds d ∧ Run.id <$> runs d' = Run.id <$> runs d
      ∧ artifacts d' = artifacts d ∧ tasks d' = tasks d
  | RunsDone _ | ReleaseDone _ =>
      builds d' = builds d
      ∧ Release.id <$> releases d' = Release.id <$> releases d
      ∧ runs d' = runs d ∧ artifacts d' = artifacts d ∧ tasks d' = tasks d
  | Upload _ =>
      builds d' = builds d ∧ releases d' = releases d
      ∧ runs d' = runs d ∧ tasks d' = tasks d
  end.
Proof.
  destruct req as [f|f|f|f|f|f|fs]; cbn [handler]; cbv zeta.
  - unfold serve, create_build.
    destruct (form_get f "name") as [[|c n]|]; mrun; done.
  - unfold serve, create_release.
    destruct (form_get_int f "build_id") as [b|]; mrun; [|done].
    destruct (form_get f "name") as [[|c n]|]; mrun; done.
  - unfold serve, report_run. rewrite run_bind.
    destruct (run_get_release_params_cases f
                (mkworld (database s) (database s) (journal s)))
      as [[msg ->]|(b & n & k & _ & _ & _ & _ & ->)]; [done|].
    mrun. destruct (first (Release_filter_by_number _ _ _ _)); mrun; [|done].
    destruct (form_get_str f "image") as [[|c i]|]; mrun; try done.
    destruct (py_not _); mrun; done.
  - destruct (form_get_int f "run_id") as [run_id|] eqn:Hid;
      [|by rewrite serve_report_pdiff_no_id].
    destruct (Run_query_get run_id (database s)) as [run|] eqn:Hrun;
      [|by rewrite (serve_report_pdiff_no_run f s run_id)].
    destruct (serve_report_pdiff f s run_id run Hid Hrun) as [j ->].
    cbn [snd database builds runs artifacts tasks].
    by rewrite replace_run_ids.
  - by rewrite serve_runs_done_unchanged.
  - by rewrite serve_release_done_unchanged.
  - unfold serve, upload, jsonify_assert, files_first.
    case_bool_decide; mrun; [|done].
    destruct fs as [|[field file_storage] fs]; mrun; [done|].
    destruct (first _); mrun; done.
Qed.
End Frame.

Lemma serve_report_pdiff_lookup f s run_id run rid rel :
  form_get_int f "run_id" = Some run_id →
  Run_query_get run_id (database s) = Some run →
  Release_row rid (database s) = Some rel →
  let d := database s in
  let d1 := mkdb (builds d) (releases d) (replace_run (reported f run) (runs d))
                 (artifacts d) (tasks d) in
  let d' := database (serve (report_pdiff f) s).2 in
  runs d' = replace_run (reported f run) (runs d)
  ∧ Release_row rid d' =
      Some (if decide (Run.release_id run = rid)
            then if done_processing rel d1
                 then Release.set_status REVIEWING rel else rel
            else rel).
Proof.
  intros Hid Hrun Hrel d d1 d'. subst d d1 d'.
  destruct (serve_report_pdiff f s run_id run Hid Hrun) as [j ->].
  cbv zeta. cbn [snd database runs]. split; [done|].
  unfold Release_row at 1. cbn [releases]. unfold checked.
  pose proof Hrel as [_ Hrid]%first_filter_elem.
  destruct (decide (Run.release_id run = rid)) as [Heq|Hne].
  - rewrite Heq, Hrel. unfold Release_row in Hrel.
    destruct (done_processing rel _); [|done].
    rewrite first_filter_replace_release.
    cbn [Release.id Release.set_status]. rewrite decide_True by done.
    cbn [releases]. by rewrite Hrel.
  - unfold Release_row in Hrel.
    destruct (Release_row _ (database s)) as [rel'|] eqn:Hrel'; [|done].
    destruct (done_processing rel' _); [|done].
    rewrite first_filter_replace_release.
    cbn [Release.id Release.set_status releases].
    apply first_filter_elem in Hrel' as [_ Hrid'].
    rewrite decide_False by congruence. done.
Qed.

Lemma elem_of_replace_run_ne r' (l : list Run.t) r0 :
  r0 ∈ replace_run r' l → r0 = r' ∨ (r0 ∈ l ∧ Run.id r0 ≠ Run.id r').
Proof.
  unfold replace_run. intros (x & -> & Hx)%list_elem_of_fmap.
  case_decide; auto.
Qed.

Lemma done_processing_false_pending rel d :
  Release.status rel = PROCESSING →
  done_processing rel d = false →
  ∃ r, pending_run (Release.id rel) d r.
Proof.
  intros Hst Hdone. unfold done_processing in Hdone.
  rewrite bool_decide_eq_true_2 in Hdone by done. cbn in Hdone.
  apply negb_false_iff, existsb_exists in Hdone as (r & Hin & Hneeds).
  apply list_elem_of_In, list_elem_of_filter in Hin as [? ?]. by exists r.
Qed.

Lemma gate_converges rid rel fs :
  Release.status rel = PROCESSING →
  ∀ s,
    NoDup (Run.id <$> runs (database s)) →
    Forall (λ f, ∃ run_id, resolves run_id f) fs →
    (Release_row rid (database s)
       = Some (Release.set_status REVIEWING rel)
     ∨ (Release_row rid (database s) = Some rel
        ∧ (∀ r, pending_run rid (database s) r →
                ∃ f, f ∈ fs ∧ resolves (Run.id r) f)
        ∧ (∃ f r, f ∈ fs ∧ r ∈ runs (database s) ∧ Run.release_id r = rid
                  ∧ resolves (Run.id r) f))) →
    Release_row rid
      (database (serve_all (report_pdiff <$> fs) s).2)
    = Some (Release.set_status REVIEWING rel).
Proof.
  intros Hst. induction fs as [|f fs IH]; intros s Hnd Hfs Hcase.
  { destruct Hcase as [?|(_ & _ & (f & r & []%elem_of_nil & _))]. done. }
  apply Forall_cons in Hfs as [(run_id & Hid & Hno) Hfs].
  cbn [fmap list_fmap serve_all].
  destruct (serve (report_pdiff f) s) as [o s1] eqn:Hserve.
  destruct (serve_all (report_pdiff <$> fs) s1) as [os s2] eqn:Hall.
  cbn [snd]. change s2 with (os, s2).2. rewrite <- Hall.
  assert (s1 = (serve (report_pdiff f) s).2) as Hs1 by by rewrite Hserve.
  clear Hserve Hall os s2 o.
  destruct (Run_query_get run_id (database s)) as [run|] eqn:Hrun.
  2:{ (* the report is refused: nothing changes *)
    rewrite (serve_report_pdiff_no_run f s run_id Hid Hrun) in Hs1.
    cbn in Hs1. subst s1. apply IH; [done..|].
    destruct Hcase as [?|(Hrel & Hcov & (f' & r & Hf' & Hr & Hrid & Hres))];
      [by left|right].
    assert (∀ r0, r0 ∈ runs (database s) → ¬ resolves (Run.id r0) f) as Hnot.
    { intros r0 Hr0 [Hid0 _]. rewrite Hid in Hid0. injection Hid0 as ->.
      destruct (first_filter_is_Some (λ x, Run.id x = Run.id r0)
                  (runs (database s)) r0 Hr0 eq_refl) as [x Hx].
      unfold Run_query_get in Hrun. by rewrite Hrun in Hx. }
    split; [done|]. split.
    - intros r0 Hr0. destruct (Hcov r0 Hr0) as (f0 & [->|Hf0]%elem_of_cons & ?);
        [|eauto]. destruct Hr0 as [Hr0 _]. by destruct (Hnot r0 Hr0).
    - apply elem_of_cons in Hf' as [->|Hf']; [by destruct (Hnot r Hr)|].
      by exists f', r. }
  pose proof Hrun as [Hrun_in Hrun_id]%first_filter_elem.
  destruct (reported_no_diff f run Hno) as [Hresolved _].
  assert (Run.id (reported f run) = Run.id run) as Hsame by done.
  assert (Run.release_id (reported f run) = Run.release_id run) as Hsame' by done.
  assert (NoDup (Run.id <$> runs (database s1))) as Hnd1.
  { destruct (Release_row rid (database s)) as [rel0|] eqn:E;
      [|by destruct Hcase as [?|[? _]]].
    destruct (serve_report_pdiff_lookup f s run_id run rid rel0 Hid Hrun E)
      as [Hruns _].
    rewrite Hs1. cbv zeta in Hruns. rewrite Hruns, replace_run_ids. done. }
  apply IH; [done..|].
  destruct Hcase as [Hrel|(Hrel & Hcov & (f' & r & Hf' & Hr & Hrid & Hres))].
  - left.
    destruct (serve_report_pdiff_lookup f s run_id run rid _ Hid Hrun Hrel)
      as [_ Hlook].
    cbv zeta in Hlook. rewrite Hs1, Hlook.
    rewrite done_processing_reviewing. by case_decide.
  - destruct (serve_report_pdiff_lookup f s run_id run rid rel Hid Hrun Hrel)
      as [Hruns Hlook].
    cbv zeta in Hruns, Hlook. rewrite <- Hs1 in Hruns, Hlook.
    pose proof Hrel as [_ Hrelid]%first_filter_elem.
    (* a run of the new table that is still pending was pending before,
       and is not the run just reported *)
    assert (∀ r0, r0 ∈ runs (database s1) → Run.needs_diff r0 = true →
                  r0 ∈ runs (database s) ∧ Run.id r0 ≠ Run.id run) as Hold.
    { intros r0 Hr0 Hneeds. rewrite Hruns in Hr0.
      apply elem_of_replace_run_ne in Hr0 as [->|[Hr0 Hne]]; [congruence|].
      by rewrite <- Hsame. }
    destruct (decide (Run.release_id run = rid)) as [Hmine|Hother].
    + destruct (done_processing rel _) eqn:Hdone; [by left|right].
      split; [done|].
      assert (∀ r0, pending_run rid (database s1) r0 →
                    ∃ f0, f0 ∈ fs ∧ resolves (Run.id r0) f0) as Hcov1.
      { intros r0 (Hr0 & Hr0rid & Hneeds).
        destruct (Hold r0 Hr0 Hneeds) as [Hr0' Hne].
        destruct (Hcov r0) as (f0 & [->|Hf0]%elem_of_cons & Hres0);
          [done| |eauto].
        destruct Hres0 as [Hid0 _]. rewrite Hid in Hid0. congruence. }
      split; [done|].
      apply done_processing_false_pending in Hdone as (r0 & Hr0); [|done].
      rewrite Hrelid in Hr0. cbn [runs] in Hr0.
      assert (pending_run rid (database s1) r0) as Hp
        by (destruct Hr0 as (? & ? & ?); split; [by rewrite Hruns|done]).
      destruct (Hcov1 r0 Hp) as (f0 & Hf0 & Hres0).
      exists f0, r0. by destruct Hp as (? & ? & ?).
    + right. split; [done|].
      assert (∀ r0, r0 ∈ runs (database s) → Run.release_id r0 = rid →
                    r0 ∈ runs (database s1) ∧ Run.id r0 ≠ Run.id run) as Hkeep.
      { intros r0 Hr0 Hr0rid.
        assert (Run.id r0 ≠ Run.id run) as Hne.
        { intros Heq.
          rewrite (run_key_inj _ r0 run Hnd Hr0 Hrun_in Heq) in Hr0rid.
          done. }
        split; [|done]. rewrite Hruns. unfold replace_run.
        apply list_elem_of_fmap. exists r0. by rewrite decide_False. }
      split.
      * intros r0 (Hr0 & Hr0rid & Hneeds).
        destruct (Hold r0 Hr0 Hneeds) as [Hr0' Hne].
        destruct (Hcov r0) as (f0 & [->|Hf0]%elem_of_cons & Hres0);
          [done| |eauto].
        destruct Hres0 as [Hid0 _]. rewrite Hid in Hid0. congruence.
      * destruct (Hkeep r Hr Hrid) as [Hr1 Hne].
        apply elem_of_cons in Hf' as [->|Hf'].
        -- destruct Hres as [Hid0 _]. rewrite Hid in Hid0. congruence.
        -- by exists f', r.
Qed.

(** X15. Once a candidate is processing, reports carrying [no_diff] bring it
    to reviewing: after a sequence of such reports that covers every run
    of the candidate that still needs a diff, and in which some report is
    for a run of the candidate, the candidate is reviewing. *)
Theorem reports_reach_reviewing fs s rid rel :
  NoDup (Run.id <$> runs (database s)) →
  Release_query_get (IdInt rid) (database s) = Ok (Some rel) →
  Release.status rel = PROCESSING →
  Forall (λ f, ∃ run_id, resolves run_id f) fs →
  (∀ r, pending_run rid (database s) r →
        ∃ f, f ∈ fs ∧ resolves (Run.id r) f) →
  (∃ f r, f ∈ fs ∧ r ∈ runs (database s) ∧ Run.release_id r = rid
          ∧ resolves (Run.id r) f) →
  Release_query_get (IdInt rid)
    (database (serve_all (report_pdiff <$> fs) s).2)
  = Ok (Some (Release.set_status REVIEWING rel)).
Proof.
  intros Hnd Hrel Hst Hfs Hcov Htarget.
  cbn [Release_query_get] in Hrel |- *. injection Hrel as Hrel. f_equal.
  apply gate_converges; [done..|]. right. done.
Qed.

Lemma processing_one_pending_db_eq :
  database processing_one_pending = processing_one_pending_db.
Proof. vm_compute. reflexivity. Qed.

Lemma reports_reach_reviewing_witness :
  NoDup (Run.id <$> runs (database processing_one_pending))
  ∧ Release_query_get (IdInt 1) (database processing_one_pending)
      = Ok (Some (Release.mk 1 "v1" 1 101 PROCESSING 1))
  ∧ Release_query_get (IdInt 1)
      (database (serve_all (report_pdiff <$> [report_no_diff])
                           processing_one_pending).2)
    = Ok (Some (Release.mk 1 "v1" 1 101 REVIEWING 1)).
Proof.
  assert (NoDup (Run.id <$> runs (database processing_one_pending))) as Hnd.
  { apply (bool_decide_eq_true_1 _). vm_compute. reflexivity. }
  split; [exact Hnd|]. split; [vm_compute; reflexivity|].
  apply (reports_reach_reviewing [report_no_diff] processing_one_pending 1
           (Release.mk 1 "v1" 1 101 PROCESSING 1) Hnd).
  - vm_compute. reflexivity.
  - reflexivity.
  - repeat constructor. by exists 1.
  - intros r (Hr & _ & _). exists report_no_diff. split; [left|].
    rewrite processing_one_pending_db_eq in Hr.
    apply list_elem_of_singleton in Hr as ->. done.
  - exists report_no_diff,
      (Run.mk 1 1 "v1" 102 (Some "img") None None None true PNone PNone).
    split; [left|]. split; [|done].
    rewrite processing_one_pending_db_eq. left.
Defined.

Section Reachable.
Variable sha1_hexdigest : list Byte.byte → string.
Variable guess_type : string → option string.

(** X7. Every server reached from the empty one is consistent: primary
    keys are distinct, the candidates of each build and release name are
    numbered 1, 2, 3, ..., the references between rows resolve, and every
    artifact is stored under the hash of its bytes. *)
Theorem reachable_consistent s :
  reachable sha1_hexdigest guess_type s →
  unique_keys (database s)
  ∧ numbered (database s)
  ∧ references_resolve (database s)
  ∧ content_addressed sha1_hexdigest (database s).
Proof.
  induction 1 as [|now req s _ (Hk & Hn & Hr & Hc)].
  - split; [repeat split; apply NoDup_nil_2|].
    split; [intros build_id name; reflexivity|].
    split; [|intros a Ha; by apply elem_of_nil in Ha].
    repeat split; [intros r Hr|intros r p Hr|intros t Hr];
      by apply elem_of_nil in Hr.
  - pose proof (handler_changes sha1_hexdigest guess_type now req s) as Hch.
    eauto 10 using changes_unique_keys, changes_numbered, changes_references,
      changes_content_addressed.
Qed.
End Reachable.

Lemma reachable_consistent_witness :
  reachable no_digest no_type
    (serve (handler no_digest no_type 100 (CreateBuild [("name", "site")]))
           fresh_server).2
  ∧ unique_keys
      (database
         (serve (handler no_digest no_type 100 (CreateBuild [("name", "site")]))
                fresh_server).2).
Proof.
  assert (reachable no_digest no_type
            (serve (handler no_digest no_type 100
                      (CreateBuild [("name", "site")])) fresh_server).2) as H
    by (apply reachable_serve, reachable_fresh).
  split; [exact H|].
  exact (proj1 (reachable_consistent no_digest no_type _ H)).
Defined.

Lemma one_pending_db_eq : database one_pending_run = one_pending_db.
Proof. vm_compute. reflexivity. Qed.

Lemma one_pending_unique_keys : unique_keys (database one_pending_run).
Proof.
  rewrite one_pending_db_eq.
  repeat split; apply (bool_decide_eq_true_1 _); reflexivity.
Qed.

Lemma one_pending_numbered : numbered (database one_pending_run).
Proof.
  rewrite one_pending_db_eq. intros build_id name.
  unfold existing_numbers, Release_filter_by_name, one_pending_db.
  cbn [releases].
  destruct (decide (1 = build_id ∧ "v1" = name)) as [H|H].
  - by rewrite filter_cons_True.
  - by rewrite filter_cons_False.
Qed.

Lemma one_pending_references : references_resolve (database one_pending_run).
Proof.
  rewrite one_pending_db_eq. unfold one_pending_db. repeat split.
  - intros r ->%list_elem_of_singleton. eexists. split; [left|done].
  - intros r p ->%list_elem_of_singleton. done.
  - intros t ->%list_elem_of_singleton. eexists. split; [left|done].
Qed.

Lemma serve_keeps_unique_keys_witness :
  unique_keys (database one_pending_run)
  ∧ unique_keys
      (database (serve (handler no_digest no_type 103 (ReportRun report_image))
                       one_pending_run).2).
Proof.
  split; [exact one_pending_unique_keys|].
  exact (serve_keeps_unique_keys no_digest no_type 103 (ReportRun report_image)
           one_pending_run one_pending_unique_keys).
Defined.

Lemma serve_keeps_numbered_witness :
  unique_keys (database one_pending_run)
  ∧ numbered (database one_pending_run)
  ∧ numbered
      (database (serve (handler no_digest no_type 103 (CreateRelease form_v1))
                       one_pending_run).2).
Proof.
  split; [exact one_pending_unique_keys|].
  split; [exact one_pending_numbered|].
  exact (serve_keeps_numbered no_digest no_type 103 (CreateRelease form_v1)
           one_pending_run one_pending_unique_keys one_pending_numbered).
Defined.

Lemma numbered_release_lookup_unique_witness :
  numbered (database one_pending_run)
  ∧ (length (Release_filter_by_number 1 "v1" 1 (database one_pending_run))
     ≤ 1)%nat.
Proof.
  split; [exact one_pending_numbered|].
  exact (numbered_release_lookup_unique (database one_pending_run) 1 "v1" 1
           one_pending_numbered).
Defined.

Lemma serve_extends_witness :
  unique_keys (database one_pending_run)
  ∧ extends (database one_pending_run)
      (database (serve (handler no_digest no_type 103 (ReportPdiff report_seven))
                       one_pending_run).2).
Proof.
  split; [exact one_pending_unique_keys|].
  exact (serve_extends no_digest no_type 103 (ReportPdiff report_seven)
           one_pending_run one_pending_unique_keys).
Defined.

Lemma serve_keeps_references_witness :
  references_resolve (database one_pending_run)
  ∧ references_resolve
      (database (serve (handler no_digest no_type 103 (ReportRun report_image))
                       one_pending_run).2).
Proof.
  split; [exact one_pending_references|].
  exact (serve_keeps_references no_digest no_type 103 (ReportRun report_image)
           one_pending_run one_pending_references).
Defined.

Lemma one_upload_db_eq : database one_upload = one_upload_db.
Proof. vm_compute. reflexivity. Qed.

Lemma one_upload_content_addressed :
  content_addressed no_digest (database one_upload).
Proof.
  rewrite one_upload_db_eq. intros a ->%list_elem_of_singleton. reflexivity.
Qed.

Lemma serve_keeps_content_addressed_witness :
  content_addressed no_digest (database one_upload)
  ∧ content_addressed no_digest
      (database (serve (handler no_digest no_type 2
                          (Upload [("file", mkFile "b.png" [])])) one_upload).2).
Proof.
  split; [exact one_upload_content_addressed|].
  exact (serve_keeps_content_addressed no_digest no_type 2
           (Upload [("file", mkFile "b.png" [])]) one_upload
           one_upload_content_addressed).
Defined.

Lemma candidate_parameters_checked_in_order_witness :
  candidate_handler runs_done
  ∧ serve (runs_done [("name", "v1"); ("number", "1")]) one_pending_run
    = (Abort "build_id required", one_pending_run).
Proof.
  split; [constructor|].
  exact (candidate_parameters_checked_in_order runs_done
           [("name", "v1"); ("number", "1")] one_pending_run
           candidate_runs_done).
Defined.

Lemma report_run_refusals_witness :
  form_get_int release_v1 "build_id" = Some 1
  ∧ form_get release_v1 "name" = Some "v1"
  ∧ "v1" ≠ ""
  ∧ form_get_int release_v1 "number" = Some 1
  ∧ serve (report_run 103 release_v1) one_pending_run
    = (Abort "image must be supplied", one_pending_run).
Proof.
  split; [done|]. split; [done|]. split; [done|]. split; [done|].
  exact (report_run_refusals 103 release_v1 one_pending_run 1 "v1" 1
           eq_refl eq_refl ltac:(done) eq_refl).
Defined.

Lemma upload_then_lookup_witness :
  content_addressed no_digest (database one_upload)
  ∧ (∀ a, a ∈ artifacts (database one_upload) →
          no_digest (Artifact.data a) = no_digest [] → Artifact.data a = [])
  ∧ ∃ a s',
      serve (upload no_digest no_type 2 [("file", mkFile "b.png" [])])
            one_upload
        = (Ok (JSha1 (Artifact.id a)), s')
      ∧ Artifact.data a = [].
Proof.
  assert (∀ a, a ∈ artifacts (database one_upload) →
               no_digest (Artifact.data a) = no_digest [] →
               Artifact.data a = []) as Hcol
    by (rewrite one_upload_db_eq; by intros a ->%list_elem_of_singleton).
  split; [exact one_upload_content_addressed|]. split; [exact Hcol|].
  destruct (upload_then_lookup no_digest no_type 2 "file" "b.png" []
              one_upload
              one_upload_content_addressed Hcol) as (a & s' & H & _ & Hdata).
  exists a, s'. split; [exact H|exact Hdata].
Defined.

Lemma release_done_raises_type_error_witness :
  form_get_int mark_good "build_id" = Some 1
  ∧ form_get mark_good "name" = Some "v1"
  ∧ "v1" ≠ ""
  ∧ form_get_int mark_good "number" = Some 1
  ∧ serve (release_done mark_good) one_pending_run
    = (Abort "TypeError", one_pending_run).
Proof.
  split; [done|]. split; [done|]. split; [done|]. split; [done|].
  exact (proj2 (release_done_raises_type_error mark_good one_pending_run
                  1 "v1" 1 eq_refl eq_refl ltac:(done) eq_refl)).
Defined.

Lemma runs_done_raises_before_commit_witness :
  form_get_int release_v1 "build_id" = Some 1
  ∧ form_get release_v1 "name" = Some "v1"
  ∧ "v1" ≠ ""
  ∧ form_get_int release_v1 "number" = Some 1
  ∧ serve (runs_done release_v1) one_pending_run
    = (Abort "DBAPIError", one_pending_run).
Proof.
  split; [done|]. split; [done|]. split; [done|]. split; [done|].
  exact (runs_done_raises_before_commit release_v1 one_pending_run 1 "v1" 1
           eq_refl eq_refl ltac:(done) eq_refl).
Defined.

Lemma report_pdiff_no_diff_twice_witness :
  supplied (form_get report_no_diff "no_diff") = true
  ∧ database (serve (report_pdiff report_no_diff)
                (serve (report_pdiff report_no_diff) one_pending_run).2).2
    = database (serve (report_pdiff report_no_diff) one_pending_run).2.
Proof.
  split; [reflexivity|].
  exact (report_pdiff_no_diff_twice report_no_diff one_pending_run eq_refl).
Defined.
